(** * accuradiolib: the embedded-state extractor and the catalog adapter

    A shallow embedding of [accuradiolib/accuradiolib.py].  Python values
    decoded from JSON are an inductive type, exceptions are an explicit
    outcome, the network and the logger are threaded as state, and the
    lazy generators ([_brands], [channels]) are finite trees of suspended
    effects that a consumer pulls one element at a time. *)

From Stdlib Require Import String Ascii List ZArith Bool Lia.
Import ListNotations.
Open Scope string_scope.

Set Implicit Arguments.
Set Warnings "-register-all".

(* ================================================================== *)
(** ** Python values *)

(** A Python [float]: the exact dyadic value [m * 2^e], an infinity or a
    NaN.  [json.loads] produces these for non-integral numbers. *)
Inductive pyfloat : Type :=
| FNan
| FInf (negative : bool)
| FFinite (m e : Z).

(** What [json.loads] returns: [None], [bool], [int], [float], [str],
    [list], and [dict] with string keys.  A [dict] keeps its insertion
    order, which is the order iteration yields its keys in; its keys are
    pairwise distinct. *)
Inductive value : Type :=
| PyNone
| PyBool (b : bool)
| PyInt (z : Z)
| PyFloat (f : pyfloat)
| PyStr (s : string)
| PyList (items : list value)
| PyDict (entries : list (string * value)).

(** Modelled from the spec: the exception classes [MarkerNotFound] and
    [InvalidData] of [accuradiolibexceptions], a module that is not among
    the sources; each carries the one argument it is raised with.  The
    other constructors are the built-in exceptions this code can run
    into, and [External] stands for whatever the HTTP client or the
    decoder raises that is not a [ValueError]. *)
Inductive exn : Type :=
| MarkerNotFound (message : string)
| InvalidData (data : string)
| AttributeError
| TypeError
| JSONDecodeError
| External (name : string).

Inductive outcome (A : Type) : Type :=
| Ret (a : A)
| Raise (e : exn).
Arguments Ret {A} a.
Arguments Raise {A} e.

(** [d[key]] as a partial lookup; the first binding wins. *)
Fixpoint dict_lookup (key : string) (d : list (string * value)) : option value :=
  match d with
  | [] => None
  | (k, v) :: d' => if String.eqb k key then Some v else dict_lookup key d'
  end.

Definition dict_keys (d : list (string * value)) : list string := map fst d.

(** [obj.get(key, default)]: only a [dict] has a [get] attribute. *)
Definition py_get (obj : value) (key : string) (default : value) : outcome value :=
  match obj with
  | PyDict d =>
      match dict_lookup key d with
      | Some v => Ret v
      | None => Ret default
      end
  | _ => Raise AttributeError
  end.

Fixpoint chars (s : string) : list value :=
  match s with
  | EmptyString => []
  | String c s' => PyStr (String c EmptyString) :: chars s'
  end.

(** [iter(obj)] followed by exhausting it: what a [for] loop walks over.
    A [dict] yields its keys, a [str] its characters; [None], numbers and
    booleans are not iterable. *)
Definition py_iter (obj : value) : outcome (list value) :=
  match obj with
  | PyList items => Ret items
  | PyDict d => Ret (map (fun kv => PyStr (fst kv)) d)
  | PyStr s => Ret (chars s)
  | _ => Raise TypeError
  end.

(** Numeric reading of a value for [==]: [bool] is a subtype of [int]. *)
Definition as_number (v : value) : option pyfloat :=
  match v with
  | PyBool b => Some (FFinite (if b then 1 else 0) 0)
  | PyInt z => Some (FFinite z 0)
  | PyFloat f => Some f
  | _ => None
  end.

Definition number_eqb (a b : pyfloat) : bool :=
  match a, b with
  | FFinite m1 e1, FFinite m2 e2 =>
      let e := Z.min e1 e2 in
      (m1 * 2 ^ (e1 - e) =? m2 * 2 ^ (e2 - e))%Z
  | FInf n1, FInf n2 => Bool.eqb n1 n2
  | _, _ => false
  end.

(** [a == b] on decoded values.  Lists compare element by element, dicts
    key by key regardless of order, numbers by exact value, NaN is equal
    to nothing.  Values here have no object identity, so the shortcut by
    which a container holding the very same NaN object compares equal to
    itself is left out. *)
Fixpoint py_eq (a b : value) : bool :=
  match a, b with
  | PyNone, PyNone => true
  | PyStr s, PyStr t => String.eqb s t
  | PyList xs, PyList ys =>
      (fix all2 (xs ys : list value) : bool :=
         match xs, ys with
         | [], [] => true
         | x :: xs', y :: ys' => py_eq x y && all2 xs' ys'
         | _, _ => false
         end) xs ys
  | PyDict d1, PyDict d2 =>
      Nat.eqb (List.length d1) (List.length d2) &&
      (fix every (d : list (string * value)) : bool :=
         match d with
         | [] => true
         | (k, v) :: d' =>
             match dict_lookup k d2 with
             | Some w => py_eq v w
             | None => false
             end && every d'
         end) d1
  | _, _ =>
      match as_number a, as_number b with
      | Some x, Some y => number_eqb x y
      | _, _ => false
      end
  end.

(* ================================================================== *)
(** ** Python strings: [find] and slicing *)

(** An index argument of [find] or of a slice, brought into [0, len]. *)
Definition clamp_index (len i : Z) : Z :=
  if (i <? 0)%Z then Z.max 0 (len + i) else Z.min len i.

(** [s.find(sub, start)]: the lowest index at or after [start] where
    [sub] occurs, or [-1]. *)
Definition str_find (s sub : string) (start : Z) : Z :=
  let len := Z.of_nat (String.length s) in
  if (len <? start)%Z then (-1)%Z
  else
    match String.index (Z.to_nat (clamp_index len start)) sub s with
    | Some i => Z.of_nat i
    | None => (-1)%Z
    end.

(** [s[start:stop]]. *)
Definition str_slice (s : string) (start stop : Z) : string :=
  let len := Z.of_nat (String.length s) in
  let a := clamp_index len start in
  let b := clamp_index len stop in
  String.substring (Z.to_nat a) (Z.to_nat (b - a)) s.

(* ================================================================== *)
(** ** The outside world *)

(** The part of a [requests] response this code reads. *)
Record response : Type := { text : string }.

(** The result of [json.loads]: a value, a [ValueError] (which is what
    a [JSONDecodeError] is), or some other exception. *)
Inductive loads_result : Type :=
| Loaded (v : value)
| LoadsValueError
| LoadsRaises (e : exn).

(** The collaborators that are not part of this repository: the servers
    behind [requests.get] (answering from a state of their own), the
    JSON decoder, and [format] on values other than [str]. *)
Class Env : Type := {
  world : Type;
  requests_get : string -> world -> outcome response * world;
  json_loads : string -> loads_result;
  py_format : value -> string
}.

(** What an observer sees happen, in order. *)
Inductive event : Type :=
| EvGet (url : string)
| EvLogError (message : string).

Record state `{Env} : Type := { net : world; trace : list event }.

(** Computations: state in, outcome and state out.  A raised exception
    keeps the effects that happened before it. *)
Definition M `{Env} (A : Type) : Type := state -> outcome A * state.

Definition ret `{Env} {A} (a : A) : M A := fun s => (Ret a, s).
Definition raise `{Env} {A} (e : exn) : M A := fun s => (Raise e, s).
Definition bind `{Env} {A B} (m : M A) (k : A -> M B) : M B :=
  fun s =>
    match m s with
    | (Ret a, s') => k a s'
    | (Raise e, s') => (Raise e, s')
    end.
Definition lift `{Env} {A} (o : outcome A) : M A := fun s => (o, s).

Notation "x <- m ;; k" := (bind m (fun x => k))
  (at level 61, m at next level, right associativity).
Notation "m ;;; k" := (bind m (fun _ => k))
  (at level 61, right associativity).

(** [requests.get(url)]. *)
Definition http_get `{Env} (url : string) : M response :=
  fun s =>
    let (r, w) := requests_get url (net s) in
    (r, {| net := w; trace := trace s ++ [EvGet url] |}).

(** [LOGGER.error(message)]. *)
Definition log_error `{Env} (message : string) : M unit :=
  fun s => (Ret tt, {| net := net s; trace := trace s ++ [EvLogError message] |}).

(** [response.json()]: nothing here catches what the decoder raises. *)
Definition response_json `{Env} (r : response) : outcome value :=
  match json_loads (text r) with
  | Loaded v => Ret v
  | LoadsValueError => Raise JSONDecodeError
  | LoadsRaises e => Raise e
  end.

(** A replacement field [{v}] of an f-string. *)
Definition format_field `{Env} (v : value) : string :=
  match v with
  | PyStr s => s
  | _ => py_format v
  end.

(* ================================================================== *)
(** ** Generators *)

(** A generator that has not finished is either about to yield an element
    or about to run some code and go on from its result. *)
Inductive gen `{Env} (A : Type) : Type :=
| GStop
| GYield (a : A) (rest : gen A)
| GDo (X : Type) (m : M X) (k : X -> gen A).
Arguments GStop {_ A}.
Arguments GYield {_ A} a rest.
Arguments GDo {_ A X} m k.

(** [next(g)]: run the generator up to its next [yield]. *)
Fixpoint gen_next `{Env} {A} (g : gen A) : M (option (A * gen A)) :=
  match g with
  | GStop => ret None
  | GYield a rest => ret (Some (a, rest))
  | GDo m k =>
      fun s =>
        match m s with
        | (Ret x, s') => gen_next (k x) s'
        | (Raise e, s') => (Raise e, s')
        end
  end.

(** [list(g)]. *)
Fixpoint gen_drain `{Env} {A} (g : gen A) : M (list A) :=
  match g with
  | GStop => ret []
  | GYield a rest => xs <- gen_drain rest ;; ret (a :: xs)
  | GDo m k =>
      fun s =>
        match m s with
        | (Ret x, s') => gen_drain (k x) s'
        | (Raise e, s') => (Raise e, s')
        end
  end.

(** The rest of a generator body after [g1] has run: [g2]. *)
Fixpoint gen_then `{Env} {A} (g1 g2 : gen A) : gen A :=
  match g1 with
  | GStop => g2
  | GYield a rest => GYield a (gen_then rest g2)
  | GDo m k => GDo m (fun x => gen_then (k x) g2)
  end.

(** [for x in g: body(x)] inside a generator. *)
Fixpoint gen_for `{Env} {A B} (g : gen A) (body : A -> gen B) : gen B :=
  match g with
  | GStop => GStop
  | GYield a rest => gen_then (body a) (gen_for rest body)
  | GDo m k => GDo m (fun x => gen_for (k x) body)
  end.

(** [for x in items: body(x)] over an already built list. *)
Fixpoint gen_for_list `{Env} {A B} (items : list A) (body : A -> gen B) : gen B :=
  match items with
  | [] => GStop
  | x :: rest => gen_then (body x) (gen_for_list rest body)
  end.

(** [(x for x in g if test(x))]. *)
Fixpoint gen_filter `{Env} {A} (test : A -> outcome bool) (g : gen A) : gen A :=
  match g with
  | GStop => GStop
  | GYield a rest =>
      match test a with
      | Ret true => GYield a (gen_filter test rest)
      | Ret false => gen_filter test rest
      | Raise e => GDo (raise (A := unit) e) (fun _ => GStop)
      end
  | GDo m k => GDo m (fun x => gen_filter test (k x))
  end.

(* ================================================================== *)
(** ** Sequencing inside [outcome] *)

Definition obind {A B} (o : outcome A) (k : A -> outcome B) : outcome B :=
  match o with
  | Ret a => k a
  | Raise e => Raise e
  end.

Notation "x <~ o ; k" := (obind o (fun x => k))
  (at level 61, o at next level, right associativity).

(* ================================================================== *)
(** ** [class Brand] *)

Module Brand.

(** The dataclass; its annotations are not enforced at run time, so
    every field holds whatever value the entry had. *)
Record t : Type := {
  channels : value;
  _id : value;
  canonical_url : value;
  param : value;
  name : value
}.

Definition fields : list string :=
  ["channels"; "_id"; "canonical_url"; "param"; "name"].

(** [Brand] called with the entry unpacked into keyword arguments: the
    generated [__init__] takes exactly the five fields.  Anything that
    is not a mapping cannot be unpacked, an unknown keyword is refused
    and so is a missing one. *)
Definition init (kwargs : value) : outcome t :=
  match kwargs with
  | PyDict d =>
      if forallb (fun k => existsb (String.eqb k) fields) (dict_keys d)
      then
        match dict_lookup "channels" d, dict_lookup "_id" d,
              dict_lookup "canonical_url" d, dict_lookup "param" d,
              dict_lookup "name" d with
        | Some c, Some i, Some u, Some p, Some n =>
            Ret {| channels := c; _id := i; canonical_url := u;
                   param := p; name := n |}
        | _, _, _, _, _ => Raise TypeError
        end
      else Raise TypeError
  | _ => Raise TypeError
  end.

Definition oid (self : t) : outcome value :=
  py_get (_id self) "$oid" PyNone.

End Brand.

(* ================================================================== *)
(** ** The [Service] object *)

Module Service.

Record t : Type := { url : string }.

(** [__init__]. *)
Definition init : t := {| url := "https://www.accuradio.com" |}.

End Service.

(* ================================================================== *)
(** ** [class Channel] *)

Module Channel.

Record t : Type := { service : Service.t; _data : value }.

Definition id (self : t) : outcome value :=
  i <~ py_get (_data self) "_id" (PyDict []) ;
  py_get i "$oid" PyNone.

Definition name (self : t) : outcome value :=
  py_get (_data self) "name" PyNone.

Definition description (self : t) : outcome value :=
  py_get (_data self) "description" PyNone.

Definition logo (self : t) : value := PyNone.

Definition media_uri `{Env} (self : t) : M value :=
  i <- lift (id self) ;;
  let url := Service.url (service self) ++ "/sweeper/json/fetch/?ucoid="
             ++ format_field i in
  r <- http_get url ;;
  lift (j <~ response_json r ;
        creative <~ py_get j "creative" (PyDict []) ;
        py_get creative "audio" PyNone).

End Channel.

(* ================================================================== *)
(** ** The methods of [Service] *)

Definition start_marker : string := "__PRELOADED_STATE__ =".
Definition end_marker : string := "}</script>".

Definition _parse_configuration_from_source `{Env} (text : string) : M value :=
  let start := str_find text start_marker 0 in
  if (start =? -1)%Z then
    raise (MarkerNotFound ("Could not find starting marker " ++ start_marker
                           ++ " in text: " ++ text))
  else
    let start := (start + Z.of_nat (String.length start_marker))%Z in
    let end_ := str_find text end_marker start in
    if (end_ =? -1)%Z then
      raise (MarkerNotFound ("Could not find end marker " ++ end_marker
                             ++ " in text: " ++ text))
    else
      (* we add the last curly brace to fix the above matching. *)
      let data := str_slice text start end_ ++ "}" in
      match json_loads data with
      | Loaded v => ret v
      | LoadsValueError =>
          log_error "Unable to parse data as json." ;;;
          raise (InvalidData data)
      | LoadsRaises e => raise e
      end.

Definition _data `{Env} (self : Service.t) : M value :=
  response <- http_get (Service.url self) ;;
  _parse_configuration_from_source (text response).

(** The iterable of the loop in [_brands]. *)
Definition brand_entries (data : value) : outcome (list value) :=
  content <~ py_get data "content" PyNone ;
  genres <~ py_get content "genres" (PyDict []) ;
  brands <~ py_get genres "brands" PyNone ;
  py_iter brands.

Definition _brands `{Env} (self : Service.t) : gen Brand.t :=
  GDo (data <- _data self ;; lift (brand_entries data))
      (fun entries =>
         gen_for_list entries (fun brand =>
           GDo (lift (Brand.init brand)) (fun b => GYield b GStop))).

Definition genre_url `{Env} (self : Service.t) (brand : Brand.t) : string :=
  Service.url self ++ "/c/m/json/genre/?param=" ++ format_field (Brand.param brand).

(** The body of the outer loop in [channels]. *)
Definition brand_channels `{Env} (self : Service.t) (brand : Brand.t) : gen Channel.t :=
  let url := genre_url self brand in
  GDo (response <- http_get url ;;
       lift (j <~ response_json response ;
             listed <~ py_get j "channels" PyNone ;
             py_iter listed))
      (fun entries =>
         gen_for_list entries (fun channel =>
           GYield {| Channel.service := self; Channel._data := channel |} GStop)).

Definition channels `{Env} (self : Service.t) : gen Channel.t :=
  gen_for (_brands self) (brand_channels self).

Definition id_matches (channel_id : value) (channel : Channel.t) : outcome bool :=
  i <~ Channel.id channel ; Ret (py_eq i channel_id).

Definition get_channel_by_id `{Env} (self : Service.t) (channel_id : value)
  : M (option Channel.t) :=
  found <- gen_next (gen_filter (id_matches channel_id) (channels self)) ;;
  ret (option_map fst found).

(* ================================================================== *)
(** ** Vocabulary of the statements *)

Unset Implicit Arguments.

(** [sub] occurs in [s] at index [i]. *)
Definition occurs_at (sub s : string) (i : nat) : Prop :=
  exists a b, s = a ++ sub ++ b /\ String.length a = i.

(** [i] is the lowest index at or after [from] where [sub] occurs. *)
Definition first_at (sub s : string) (from i : nat) : Prop :=
  from <= i /\ occurs_at sub s i /\
  forall j, from <= j < i -> ~ occurs_at sub s j.

(** A page in which [content] lies between the first start marker and
    the first end marker after it: no start marker begins inside [pre],
    no end marker begins between the cursor and the end of [content]. *)
Definition embeds (page pre content post : string) : Prop :=
  page = pre ++ start_marker ++ content ++ end_marker ++ post /\
  (forall j, j < String.length pre -> ~ occurs_at start_marker page j) /\
  (forall j, String.length pre + String.length start_marker <= j
             < String.length pre + String.length start_marker + String.length content ->
             ~ occurs_at end_marker page j).

(** A decidable check that [sub] does not occur at the indices
    [from, from + count). *)
Definition nowhere_in (sub s : string) (from count : nat) : bool :=
  forallb (fun k => negb (String.eqb (String.substring k (String.length sub) s) sub))
          (seq from count).

(** The value found by following [path] through nested dicts. *)
Fixpoint field_at (path : list string) (v : value) : option value :=
  match path with
  | [] => Some v
  | key :: path' =>
      match v with
      | PyDict d =>
          match dict_lookup key d with
          | Some w => field_at path' w
          | None => None
          end
      | _ => None
      end
  end.

Definition brands_path : list string := ["content"; "genres"; "brands"].

(** Constructing a [Brand] from each entry in turn; the first failure
    ends it. *)
Fixpoint construct_all (entries : list value) : outcome (list Brand.t) :=
  match entries with
  | [] => Ret []
  | e :: rest =>
      b <~ Brand.init e ;
      bs <~ construct_all rest ;
      Ret (b :: bs)
  end.

Definition channel_of (self : Service.t) (entry : value) : Channel.t :=
  {| Channel.service := self; Channel._data := entry |}.

(** The genre endpoint answers the requests for [brands], one after the
    other starting from [w], with bodies that decode to objects whose
    [channels] arrays are [listings]. *)
Inductive served `{Env} (self : Service.t)
  : world -> list Brand.t -> list (list value) -> world -> Prop :=
| served_none w : served self w [] [] w
| served_next w b brands r w1 j listing listings w2 :
    requests_get (genre_url self b) w = (Ret r, w1) ->
    json_loads (text r) = Loaded j ->
    field_at ["channels"] j = Some (PyList listing) ->
    served self w1 brands listings w2 ->
    served self w (b :: brands) (listing :: listings) w2.

(** Running the code of a generator: from [g] in state [s] it reaches
    [g'] in state [s'] having yielded [xs] on the way. *)
Inductive advances `{Env} {A : Type}
  : gen A -> state -> list A -> gen A -> state -> Prop :=
| adv_here g s : advances g s [] g s
| adv_yield a rest s xs g' s' :
    advances rest s xs g' s' ->
    advances (GYield a rest) s (a :: xs) g' s'
| adv_do X (m : M X) k s x s1 xs g' s' :
    m s = (Ret x, s1) ->
    advances (k x) s1 xs g' s' ->
    advances (GDo m k) s xs g' s'.

(** The first [n] elements a consumer pulls ([islice(g, n)] as a list). *)
Fixpoint gen_take `{Env} {A} (n : nat) (g : gen A) : M (list A) :=
  match n with
  | O => ret []
  | S n' =>
      r <- gen_next g ;;
      match r with
      | None => ret []
      | Some (x, g') => xs <- gen_take n' g' ;; ret (x :: xs)
      end
  end.

(** The loop of [_brands] over the entries it was given. *)
Definition brands_loop `{Env} (entries : list value) : gen Brand.t :=
  gen_for_list entries (fun brand =>
    GDo (lift (Brand.init brand)) (fun b => GYield b GStop)).

(** The brand entry of the first example of the specification. *)
Definition example_brand_entry : value :=
  PyDict [("channels", PyInt 5);
          ("_id", PyDict [("$oid", PyStr "abc")]);
          ("canonical_url", PyStr "u");
          ("param", PyStr "p");
          ("name", PyStr "n")].

(** The channel entry of its second example, and the decoded answer
    that lists it. *)
Definition example_channel_entry : value :=
  PyDict [("_id", PyDict [("$oid", PyStr "1")]);
          ("name", PyStr "A");
          ("description", PyStr "d")].

Definition example_listing : value :=
  PyDict [("channels", PyList [example_channel_entry])].

(** A channel entry whose [_id] is JSON [null]. *)
Definition null_id_channel : Channel.t :=
  channel_of Service.init (PyDict [("_id", PyNone); ("name", PyStr "A")]).

(** An entry does not fit the [Brand] fields: it has a key that is not
    one of them, or lacks one of them. *)
Definition misfit (d : list (string * value)) : Prop :=
  (exists k, In k (dict_keys d) /\ ~ In k Brand.fields) \/
  (exists f, In f Brand.fields /\ ~ In f (dict_keys d)).

(** The channel's id is there and compares equal, or unequal, to
    [channel_id]. *)
Definition has_id (channel_id : value) (c : Channel.t) : Prop :=
  exists i, Channel.id c = Ret i /\ py_eq i channel_id = true.

Definition has_other_id (channel_id : value) (c : Channel.t) : Prop :=
  exists i, Channel.id c = Ret i /\ py_eq i channel_id = false.

(** [d.get(key)] with [None] as the default, as a total function. *)
Definition get_or_none (key : string) (d : list (string * value)) : value :=
  match dict_lookup key d with
  | Some v => v
  | None => PyNone
  end.

(** The channels made from the listings of the brands, in order. *)
Definition listed (self : Service.t) (listings : list (list value)) : list Channel.t :=
  concat (map (map (channel_of self)) listings).

(** The requests to the genre endpoint for [brands], in order. *)
Definition genre_requests `{Env} (self : Service.t) (brands : list Brand.t) : list event :=
  map (fun b => EvGet (Service.url self ++ "/c/m/json/genre/?param="
                       ++ format_field (Brand.param b))) brands.

(* ================================================================== *)
(** ** A concrete environment for running the definitions *)

(** The theorems below hold for every [Env].  To run the definitions on
    actual pages the examples use this one: a server that answers from a
    fixed table of bodies, and a decoder for the JSON texts that occur in
    the examples (objects, arrays, strings without escapes, integers,
    [true], [false], [null]).  Where the decoder meets something outside
    that fragment it gives up with an [External] exception instead of
    guessing what [json.loads] would do. *)
Module Fixture.

Definition is_space (c : ascii) : bool :=
  (Ascii.eqb c " " || Ascii.eqb c "009" || Ascii.eqb c "010" || Ascii.eqb c "013")%char.

Definition is_digit (c : ascii) : bool :=
  let n := nat_of_ascii c in (48 <=? n)%nat && (n <=? 57)%nat.

Fixpoint skip_space (s : string) : string :=
  match s with
  | String c s' => if is_space c then skip_space s' else s
  | EmptyString => s
  end.

Inductive parsed (A : Type) : Type :=
| Got (a : A) (rest : string)
| Bad
| Unsupported.
Arguments Got {A} a rest.
Arguments Bad {A}.
Arguments Unsupported {A}.

(** The characters of a string literal after its opening quote. *)
Fixpoint string_body (s : string) : parsed string :=
  match s with
  | EmptyString => Bad
  | String c s' =>
      if Ascii.eqb c "034" then Got EmptyString s'
      else if Ascii.eqb c "\" then Unsupported
      else if (nat_of_ascii c <? 32)%nat then Bad
      else match string_body s' with
           | Got body rest => Got (String c body) rest
           | Bad => Bad
           | Unsupported => Unsupported
           end
  end.

Fixpoint digits (acc : Z) (s : string) : Z * string :=
  match s with
  | String c s' =>
      if is_digit c
      then digits (10 * acc + Z.of_nat (nat_of_ascii c - 48)) s'
      else (acc, s)
  | EmptyString => (acc, s)
  end.

(** An integer literal whose sign has been read. *)
Definition integer (negative : bool) (s : string) : parsed value :=
  match s with
  | String c s' =>
      if is_digit c then
        let (n, rest) := if Ascii.eqb c "0" then (0%Z, s') else digits 0 s in
        match rest with
        | String d _ =>
            if is_digit d then Bad
            else if (Ascii.eqb d "." || Ascii.eqb d "e" || Ascii.eqb d "E")%bool
                 then Unsupported
                 else Got (PyInt (if negative then - n else n)) rest
        | EmptyString => Got (PyInt (if negative then - n else n)) rest
        end
      else Unsupported
  | EmptyString => Bad
  end.

(** A later binding of a key replaces the value of the earlier one. *)
Fixpoint dict_set (key : string) (v : value) (d : list (string * value))
  : list (string * value) :=
  match d with
  | [] => [(key, v)]
  | (k, w) :: d' =>
      if String.eqb k key then (k, v) :: d' else (k, w) :: dict_set key v d'
  end.

Definition literal (word : string) (v : value) (s : string) : parsed value :=
  if String.prefix word s
  then Got v (String.substring (String.length word)
                               (String.length s - String.length word) s)
  else Unsupported.

(** [s] without its first character when that is [c]. *)
Definition after_char (c : ascii) (s : string) : option string :=
  match s with
  | String d rest => if Ascii.eqb d c then Some rest else None
  | EmptyString => None
  end.

Fixpoint element (fuel : nat) (s : string) : parsed value :=
  match fuel with
  | O => Unsupported
  | S fuel' =>
      match skip_space s with
      | EmptyString => Bad
      | String c s' =>
          if Ascii.eqb c "{" then
            match after_char "}" (skip_space s') with
            | Some rest => Got (PyDict []) rest
            | None => members fuel' [] s'
            end
          else if Ascii.eqb c "[" then
            match after_char "]" (skip_space s') with
            | Some rest => Got (PyList []) rest
            | None => elements fuel' [] s'
            end
          else if Ascii.eqb c "034" then
            match string_body s' with
            | Got body rest => Got (PyStr body) rest
            | Bad => Bad
            | Unsupported => Unsupported
            end
          else if Ascii.eqb c "-" then integer true s'
          else if is_digit c then integer false (String c s')
          else if Ascii.eqb c "t" then literal "true" (PyBool true) (String c s')
          else if Ascii.eqb c "f" then literal "false" (PyBool false) (String c s')
          else if Ascii.eqb c "n" then literal "null" PyNone (String c s')
          else if (Ascii.eqb c "N" || Ascii.eqb c "I")%bool then Unsupported
          else Bad
      end
  end

with members (fuel : nat) (acc : list (string * value)) (s : string) : parsed value :=
  match fuel with
  | O => Unsupported
  | S fuel' =>
      match after_char "034" (skip_space s) with
      | None => Bad
      | Some s1 =>
          match string_body s1 with
          | Bad => Bad
          | Unsupported => Unsupported
          | Got key s2 =>
              match after_char ":" (skip_space s2) with
              | None => Bad
              | Some s3 =>
                  match element fuel' s3 with
                  | Bad => Bad
                  | Unsupported => Unsupported
                  | Got v s4 =>
                      let acc' := dict_set key v acc in
                      match after_char "," (skip_space s4) with
                      | Some s5 => members fuel' acc' s5
                      | None =>
                          match after_char "}" (skip_space s4) with
                          | Some rest => Got (PyDict acc') rest
                          | None => Bad
                          end
                      end
                  end
              end
          end
      end
  end

with elements (fuel : nat) (acc : list value) (s : string) : parsed value :=
  match fuel with
  | O => Unsupported
  | S fuel' =>
      match element fuel' s with
      | Bad => Bad
      | Unsupported => Unsupported
      | Got v s1 =>
          match after_char "," (skip_space s1) with
          | Some s2 => elements fuel' (acc ++ [v]) s2
          | None =>
              match after_char "]" (skip_space s1) with
              | Some rest => Got (PyList (acc ++ [v])) rest
              | None => Bad
              end
          end
      end
  end.

Definition loads (s : string) : loads_result :=
  match element (S (String.length s)) s with
  | Got v rest =>
      match skip_space rest with
      | EmptyString => Loaded v
      | _ => LoadsValueError
      end
  | Bad => LoadsValueError
  | Unsupported => LoadsRaises (External "outside the fragment of the examples")
  end.

(** The server: a table from URL to body; any other URL does not
    answer. *)
Fixpoint body_of (url : string) (table : list (string * string)) : option string :=
  match table with
  | [] => None
  | (u, b) :: table' => if String.eqb u url then Some b else body_of url table'
  end.

Definition get (url : string) (table : list (string * string))
  : outcome response * list (string * string) :=
  match body_of url table with
  | Some b => (Ret {| text := b |}, table)
  | None => (Raise (External "ConnectionError"), table)
  end.

(** [format] on the values that have a fixed short rendering; the
    examples format nothing else. *)
Definition format (v : value) : string :=
  match v with
  | PyNone => "None"
  | PyBool true => "True"
  | PyBool false => "False"
  | PyStr s => s
  | _ => "<object>"
  end.

Definition env : Env :=
  {| world := list (string * string);
     requests_get := get;
     json_loads := loads;
     py_format := format |}.

(** Page and body texts are written with apostrophes where the text
    has quotation marks. *)
Fixpoint quoted (s : string) : string :=
  match s with
  | EmptyString => EmptyString
  | String c s' => String (if Ascii.eqb c "'" then "034"%char else c) (quoted s')
  end.

Definition root_url : string := "https://www.accuradio.com".
Definition genre_p_url : string := "https://www.accuradio.com/c/m/json/genre/?param=p".
Definition genre_q_url : string := "https://www.accuradio.com/c/m/json/genre/?param=q".

(** A page is given by what stands between the markers; the closing
    brace of the state is the first character of the end marker. *)
Definition page_pre : string := "<html><script>window.".
Definition page_post : string := "</html>".
Definition page_around (content : string) : string :=
  page_pre ++ start_marker ++ content ++ end_marker ++ page_post.

Definition state_with (brands : value) : value :=
  PyDict [("content", PyDict [("genres", PyDict [("brands", brands)])])].

(** The first example of the specification: the root page, its state
    and its brand. *)
Definition root_content : string :=
  quoted " {'content': {'genres': {'brands': [{'channels': 5, '_id': {'$oid': 'abc'}, 'canonical_url': 'u', 'param': 'p', 'name': 'n'}]}}".
Definition root_page : string := page_around root_content.
Definition root_state : value := state_with (PyList [example_brand_entry]).
Definition brand_p : Brand.t :=
  {| Brand.channels := PyInt 5;
     Brand._id := PyDict [("$oid", PyStr "abc")];
     Brand.canonical_url := PyStr "u";
     Brand.param := PyStr "p";
     Brand.name := PyStr "n" |}.

(** The second example: the answer of the genre endpoint. *)
Definition genre_body : string :=
  quoted "{'channels':[{'_id':{'$oid':'1'},'name':'A','description':'d'}]}".

Definition table : list (string * string) :=
  [(root_url, root_page); (genre_p_url, genre_body)].

(** The same brand with two channels listed. *)
Definition other_channel_entry : value :=
  PyDict [("_id", PyDict [("$oid", PyStr "0")]); ("name", PyStr "Z")].
Definition two_channel_body : string :=
  quoted "{'channels':[{'_id':{'$oid':'0'},'name':'Z'},{'_id':{'$oid':'1'},'name':'A','description':'d'}]}".
Definition two_channel_table : list (string * string) :=
  [(root_url, root_page); (genre_p_url, two_channel_body)].

(** Pages without a marker. *)
Definition unmarked_page : string := "<html></html>".
Definition unclosed_page : string := "window.__PRELOADED_STATE__ = {".

(** A page whose slice does not decode. *)
Definition undecodable_content : string := quoted " {'a' 1".
Definition undecodable_page : string := page_around undecodable_content.

(** States that lack one level of the path to the brands. *)
Definition no_content_page : string := page_around " {".
Definition no_genres_page : string := page_around (quoted " {'content': {}").
Definition no_brands_page : string :=
  page_around (quoted " {'content': {'genres': {}}").

(** A brand entry without its [name], and one with a key too many. *)
Definition nameless_entry : list (string * value) :=
  [("channels", PyInt 5);
   ("_id", PyDict [("$oid", PyStr "abc")]);
   ("canonical_url", PyStr "u");
   ("param", PyStr "p")].
Definition nameless_page : string :=
  page_around (quoted " {'content': {'genres': {'brands': [{'channels': 5, '_id': {'$oid': 'abc'}, 'canonical_url': 'u', 'param': 'p'}]}}").

(** Two brands, the second of which gets an answer without
    [channels]. *)
Definition entry_q : value :=
  PyDict [("channels", PyInt 0);
          ("_id", PyDict [("$oid", PyStr "def")]);
          ("canonical_url", PyStr "v");
          ("param", PyStr "q");
          ("name", PyStr "m")].
Definition brand_q : Brand.t :=
  {| Brand.channels := PyInt 0;
     Brand._id := PyDict [("$oid", PyStr "def")];
     Brand.canonical_url := PyStr "v";
     Brand.param := PyStr "q";
     Brand.name := PyStr "m" |}.
Definition two_brand_page : string :=
  page_around (quoted " {'content': {'genres': {'brands': [{'channels': 5, '_id': {'$oid': 'abc'}, 'canonical_url': 'u', 'param': 'p', 'name': 'n'}, {'channels': 0, '_id': {'$oid': 'def'}, 'canonical_url': 'v', 'param': 'q', 'name': 'm'}]}}").
Definition keyless_body : string := quoted "{'stations': []}".
Definition keyless_table : list (string * string) :=
  [(root_url, two_brand_page); (genre_p_url, genre_body);
   (genre_q_url, keyless_body)].

(** The sweeper endpoint for the channel of the second example, with
    and without a creative. *)
Definition sweeper_url : string :=
  "https://www.accuradio.com/sweeper/json/fetch/?ucoid=1".
Definition sweeper_body : string :=
  quoted "{'creative': {'audio': 'https://cdn.example/ad.mp3', 'length': 30}}".
Definition sweeper_table : list (string * string) := [(sweeper_url, sweeper_body)].
Definition bare_sweeper_table : list (string * string) := [(sweeper_url, "{}")].
Definition flat_sweeper_table : list (string * string) :=
  [(sweeper_url, quoted "{'creative': 'none'}")].
Definition broken_sweeper_table : list (string * string) :=
  [(sweeper_url, "<html>")].

(** A state with a number the decoder of the examples gives up on. *)
Definition fraction_content : string := quoted " {'a': 1.5".
Definition fraction_page : string := page_around fraction_content.

(** A catalog without brands. *)
Definition empty_catalog_page : string :=
  page_around (quoted " {'content': {'genres': {'brands': []}}").

(** The brand of the examples followed by an entry that is no brand;
    the genre endpoint lists three channels, the middle one with a
    [null] identifier. *)
Definition stray_entry : value := PyDict [("channels", PyInt 1)].
Definition stray_page : string :=
  page_around (quoted " {'content': {'genres': {'brands': [{'channels': 5, '_id': {'$oid': 'abc'}, 'canonical_url': 'u', 'param': 'p', 'name': 'n'}, {'channels': 1}]}}").
Definition stray_table : list (string * string) :=
  [(root_url, stray_page); (genre_p_url, two_channel_body)].
Definition null_id_entry : value := PyDict [("_id", PyNone)].
Definition null_id_body : string :=
  quoted "{'channels':[{'_id':{'$oid':'0'},'name':'Z'},{'_id':null},{'_id':{'$oid':'1'},'name':'A','description':'d'}]}".
Definition null_id_table : list (string * string) :=
  [(root_url, stray_page); (genre_p_url, null_id_body)].

(** The catalog of the examples with the listing that has a [null]
    identifier in the middle. *)
Definition null_listing_table : list (string * string) :=
  [(root_url, root_page); (genre_p_url, null_id_body)].

(** Genre endpoints that do not answer, answer with a page, or answer
    with an array. *)
Definition down_table : list (string * string) := [(root_url, root_page)].
Definition html_table : list (string * string) :=
  [(root_url, root_page); (genre_p_url, "<html>")].
Definition array_table : list (string * string) :=
  [(root_url, root_page); (genre_p_url, "[]")].

(** The state in which the server answers from [table] and the
    requests [urls] have been made. *)
Definition after (table : list (string * string)) (urls : list string) : @state env :=
  {| net := (table : @world env); trace := map EvGet urls |}.

End Fixture.

(** The decidable form of [embeds]. *)
Definition embedsb (page pre content post : string) : bool :=
  String.eqb page (pre ++ start_marker ++ content ++ end_marker ++ post)
  && nowhere_in start_marker page 0 (String.length pre)
  && nowhere_in end_marker page
                (String.length pre + String.length start_marker)
                (String.length content).

(** The request [media_uri] makes for a channel whose id is [i]. *)
Definition sweeper_request `{Env} (c : Channel.t) (i : value) : string :=
  Service.url (Channel.service c) ++ "/sweeper/json/fetch/?ucoid=" ++ format_field i.

(** The inner loop of [channels]: one channel per entry. *)
Definition yield_channels `{Env} (self : Service.t) (entries : list value) : gen Channel.t :=
  gen_for_list entries (fun channel => GYield (channel_of self channel) GStop).

(* ================================================================== *)
(** ** Strings *)

Section Strings.

Lemma length_app (a b : string) :
  String.length (a ++ b) = String.length a + String.length b.
Proof.
  induction a as [|c a IH]; simpl; [reflexivity|]. now rewrite IH.
Qed.

Lemma app_assoc_str (a b c : string) : (a ++ b) ++ c = a ++ b ++ c.
Proof.
  induction a as [|x a IH]; simpl; [reflexivity|]. now rewrite IH.
Qed.

Lemma substring_skip (a t : string) (n : nat) :
  String.substring (String.length a) n (a ++ t) = String.substring 0 n t.
Proof.
  induction a as [|c a IH]; simpl; [reflexivity|]. exact IH.
Qed.

Lemma substring_take (x y : string) :
  String.substring 0 (String.length x) (x ++ y) = x.
Proof.
  induction x as [|c x IH]; simpl.
  - destruct y; reflexivity.
  - now rewrite IH.
Qed.

Lemma substring_head (sub : string) :
  forall s, String.substring 0 (String.length sub) s = sub ->
            exists b, s = sub ++ b.
Proof.
  induction sub as [|c sub IH]; intros s Hs.
  - exists s. reflexivity.
  - destruct s as [|c' s']; simpl in Hs; [discriminate|].
    injection Hs as Hc Hrest. subst c'.
    destruct (IH _ Hrest) as [b Hb]. exists b. simpl. now rewrite <- Hb.
Qed.

Lemma occurs_substring sub s i :
  occurs_at sub s i -> String.substring i (String.length sub) s = sub.
Proof.
  intros (a & b & -> & <-).
  rewrite substring_skip. apply substring_take.
Qed.

Lemma substring_occurs sub :
  sub <> EmptyString ->
  forall i s, String.substring i (String.length sub) s = sub -> occurs_at sub s i.
Proof.
  intros Hne. induction i as [|i IH]; intros s Hs.
  - destruct (substring_head _ _ Hs) as [b Hb].
    exists EmptyString, b. split; [exact Hb | reflexivity].
  - destruct s as [|c s'].
    + simpl in Hs. congruence.
    + simpl in Hs. destruct (IH _ Hs) as (a & b & Hab & Hlen).
      exists (String c a), b. split; simpl; [now rewrite Hab | now rewrite Hlen].
Qed.

Lemma occurs_within sub s i :
  occurs_at sub s i -> i + String.length sub <= String.length s.
Proof.
  intros (a & b & -> & <-). rewrite !length_app. lia.
Qed.

Lemma index_from sub :
  forall s n m, String.index n sub s = Some m -> n <= m.
Proof.
  induction s as [|c s IH]; intros n m Hi; simpl in Hi.
  - destruct n; [|discriminate]. lia.
  - destruct n as [|n]; [lia|].
    destruct (String.index n sub s) as [q|] eqn:E; [|discriminate].
    injection Hi as <-. specialize (IH n q E). lia.
Qed.

Lemma index_first sub s n i :
  sub <> EmptyString -> first_at sub s n i -> String.index n sub s = Some i.
Proof.
  intros Hne (Hle & Hocc & Hmin).
  destruct (String.index n sub s) as [m|] eqn:E.
  - pose proof (index_correct1 _ _ _ _ E) as Hm.
    pose proof (index_correct2 _ _ _ _ E) as Hbefore.
    pose proof (index_from _ _ _ _ E) as Hnm.
    destruct (Nat.lt_trichotomy m i) as [Hlt | [-> | Hgt]].
    + exfalso. apply (Hmin m); [lia|]. now apply substring_occurs.
    + reflexivity.
    + exfalso. apply (Hbefore i Hle Hgt). now apply occurs_substring.
  - exfalso. apply (index_correct3 _ i _ _ E Hne Hle).
    now apply occurs_substring.
Qed.

Lemma index_absent sub s n :
  sub <> EmptyString ->
  (forall j, n <= j -> ~ occurs_at sub s j) ->
  String.index n sub s = None.
Proof.
  intros Hne Habs.
  destruct (String.index n sub s) as [m|] eqn:E; [|reflexivity].
  exfalso. apply (Habs m).
  - exact (index_from _ _ _ _ E).
  - apply substring_occurs; [exact Hne|]. exact (index_correct1 _ _ _ _ E).
Qed.

Lemma find_first sub s n i :
  sub <> EmptyString -> first_at sub s n i ->
  str_find s sub (Z.of_nat n) = Z.of_nat i.
Proof.
  intros Hne Hfirst.
  pose proof (index_first _ _ _ _ Hne Hfirst) as Hidx.
  destruct Hfirst as (Hle & Hocc & _).
  pose proof (occurs_within _ _ _ Hocc) as Hin.
  unfold str_find, clamp_index.
  destruct (Z.ltb_spec (Z.of_nat (String.length s)) (Z.of_nat n)); [lia|].
  destruct (Z.ltb_spec (Z.of_nat n) 0); [lia|].
  rewrite Z.min_r by lia. rewrite Nat2Z.id. now rewrite Hidx.
Qed.

Lemma find_absent sub s n :
  sub <> EmptyString ->
  (forall j, n <= j -> ~ occurs_at sub s j) ->
  str_find s sub (Z.of_nat n) = (-1)%Z.
Proof.
  intros Hne Habs. unfold str_find, clamp_index.
  destruct (Z.ltb_spec (Z.of_nat (String.length s)) (Z.of_nat n)); [reflexivity|].
  destruct (Z.ltb_spec (Z.of_nat n) 0); [lia|].
  rewrite Z.min_r by lia. rewrite Nat2Z.id.
  now rewrite (index_absent _ _ _ Hne Habs).
Qed.

Lemma slice_between (s : string) (a b : nat) :
  a <= b <= String.length s ->
  str_slice s (Z.of_nat a) (Z.of_nat b) = String.substring a (b - a) s.
Proof.
  intros Hab. unfold str_slice, clamp_index.
  destruct (Z.ltb_spec (Z.of_nat a) 0); [lia|].
  destruct (Z.ltb_spec (Z.of_nat b) 0); [lia|].
  rewrite !Z.min_r by lia. rewrite Nat2Z.id.
  f_equal. lia.
Qed.

Lemma nowhere_in_sound sub s from count :
  nowhere_in sub s from count = true ->
  forall j, from <= j < from + count -> ~ occurs_at sub s j.
Proof.
  unfold nowhere_in. intros Hall j Hj Hocc.
  rewrite forallb_forall in Hall.
  assert (Hin : In j (seq from count)) by (apply in_seq; lia).
  specialize (Hall j Hin). rewrite (occurs_substring _ _ _ Hocc) in Hall.
  now rewrite String.eqb_refl in Hall.
Qed.

Lemma nowhere_in_absent sub s :
  nowhere_in sub s 0 (S (String.length s)) = true ->
  forall j, ~ occurs_at sub s j.
Proof.
  intros Hall j Hocc.
  pose proof (occurs_within _ _ _ Hocc) as Hin.
  apply (nowhere_in_sound _ _ _ _ Hall j); [lia | exact Hocc].
Qed.

End Strings.

(* ================================================================== *)
(** ** The embedded-state extractor *)

Section Extractor.

Context `{Env}.

Lemma start_marker_nonempty : start_marker <> EmptyString.
Proof. unfold start_marker. discriminate. Qed.

Lemma end_marker_nonempty : end_marker <> EmptyString.
Proof. unfold end_marker. discriminate. Qed.

Lemma embeds_start page pre content post :
  embeds page pre content post ->
  first_at start_marker page 0 (String.length pre).
Proof.
  intros (Hpage & Hpre & _). repeat split.
  - lia.
  - exists pre, (content ++ end_marker ++ post). split; [exact Hpage | reflexivity].
  - intros j Hj. apply Hpre. lia.
Qed.

Lemma embeds_end page pre content post :
  embeds page pre content post ->
  first_at end_marker page
           (String.length pre + String.length start_marker)
           (String.length pre + String.length start_marker + String.length content).
Proof.
  intros (Hpage & _ & Hcontent). repeat split.
  - lia.
  - exists (pre ++ start_marker ++ content), post. split.
    + rewrite Hpage. now rewrite !app_assoc_str.
    + rewrite !length_app. lia.
  - exact Hcontent.
Qed.

Lemma embeds_slice page pre content post :
  embeds page pre content post ->
  str_slice page
    (Z.of_nat (String.length pre + String.length start_marker))
    (Z.of_nat (String.length pre + String.length start_marker + String.length content))
  = content.
Proof.
  intros Hemb. pose proof Hemb as (Hpage & _ & _).
  rewrite slice_between.
  - replace (String.length pre + String.length start_marker + String.length content
             - (String.length pre + String.length start_marker))
      with (String.length content) by lia.
    rewrite Hpage. rewrite <- (app_assoc_str pre start_marker).
    rewrite <- length_app. rewrite substring_skip. apply substring_take.
  - rewrite Hpage. rewrite !length_app. lia.
Qed.

(** On such a page the extractor gets as far as decoding
    [content ++ "}"]. *)
Lemma parse_embedded page pre content post :
  embeds page pre content post ->
  _parse_configuration_from_source page =
  match json_loads (content ++ "}") with
  | Loaded v => ret v
  | LoadsValueError =>
      log_error "Unable to parse data as json." ;;;
      raise (InvalidData (content ++ "}"))
  | LoadsRaises e => raise e
  end.
Proof.
  intros Hemb. unfold _parse_configuration_from_source. cbv zeta.
  change 0%Z with (Z.of_nat 0).
  rewrite (find_first _ _ _ _ start_marker_nonempty (embeds_start _ _ _ _ Hemb)).
  destruct (Z.eqb_spec (Z.of_nat (String.length pre)) (-1)); [lia|].
  rewrite <- Nat2Z.inj_add.
  rewrite (find_first _ _ _ _ end_marker_nonempty (embeds_end _ _ _ _ Hemb)).
  destruct (Z.eqb_spec
              (Z.of_nat (String.length pre + String.length start_marker
                         + String.length content)) (-1)); [lia|].
  rewrite (embeds_slice _ _ _ _ Hemb). reflexivity.
Qed.

(** C1.  On a page where [content] lies between the first start marker
    and the first end marker after it, and [content] with one closing
    brace appended decodes to [v], the extractor returns [v] and does
    nothing else. *)
Theorem parse_returns_decoded_content page pre content post v (s : state) :
  embeds page pre content post ->
  json_loads (content ++ "}") = Loaded v ->
  _parse_configuration_from_source page s = (Ret v, s).
Proof.
  intros Hemb Hv. rewrite (parse_embedded _ _ _ _ Hemb), Hv. reflexivity.
Qed.

(** C2.  A page without the start marker is refused with
    [MarkerNotFound] naming the start marker; a page with the start
    marker but no end marker at or after the position just past its
    first occurrence is refused with [MarkerNotFound] naming the end
    marker.  Either message ends with the page itself. *)
Theorem missing_marker_raises page (s : state) :
  ((forall j, ~ occurs_at start_marker page j) ->
   _parse_configuration_from_source page s =
   (Raise (MarkerNotFound ("Could not find starting marker " ++ start_marker
                           ++ " in text: " ++ page)), s))
  /\
  (forall i,
     first_at start_marker page 0 i ->
     (forall j, i + String.length start_marker <= j -> ~ occurs_at end_marker page j) ->
     _parse_configuration_from_source page s =
     (Raise (MarkerNotFound ("Could not find end marker " ++ end_marker
                             ++ " in text: " ++ page)), s)).
Proof.
  split.
  - intros Habs. unfold _parse_configuration_from_source. cbv zeta.
    change 0%Z with (Z.of_nat 0).
    rewrite (find_absent _ _ _ start_marker_nonempty (fun j _ => Habs j)).
    reflexivity.
  - intros i Hfirst Habs. unfold _parse_configuration_from_source. cbv zeta.
    change 0%Z with (Z.of_nat 0).
    rewrite (find_first _ _ _ _ start_marker_nonempty Hfirst).
    destruct (Z.eqb_spec (Z.of_nat i) (-1)); [lia|].
    rewrite <- Nat2Z.inj_add.
    rewrite (find_absent _ _ _ end_marker_nonempty Habs).
    reflexivity.
Qed.

(** C3.  When both markers are found but the slice between them with
    one closing brace appended is not valid JSON, the extractor raises
    [InvalidData] carrying that repaired slice, and by then the error
    has been logged. *)
Theorem undecodable_slice_raises page pre content post (s : state) :
  embeds page pre content post ->
  json_loads (content ++ "}") = LoadsValueError ->
  _parse_configuration_from_source page s =
  (Raise (InvalidData (content ++ "}")),
   {| net := net s;
      trace := trace s ++ [EvLogError "Unable to parse data as json."] |}).
Proof.
  intros Hemb Hv. rewrite (parse_embedded _ _ _ _ Hemb), Hv. reflexivity.
Qed.

End Extractor.

(* ================================================================== *)
(** ** Consuming generators *)

Section Generators.

Context `{Env}.

Lemma gen_take_do {A X} (m : M X) (k : X -> gen A) n s :
  gen_take (S n) (GDo m k) s =
  match m s with
  | (Ret x, s1) => gen_take (S n) (k x) s1
  | (Raise e, s1) => (Raise e, s1)
  end.
Proof.
  simpl. unfold bind. simpl. destruct (m s) as [[x|e] s1]; reflexivity.
Qed.

Lemma gen_take_yield {A} (a : A) rest n s :
  gen_take (S n) (GYield a rest) s =
  match gen_take n rest s with
  | (Ret xs, s1) => (Ret (a :: xs), s1)
  | (Raise e, s1) => (Raise e, s1)
  end.
Proof. reflexivity. Qed.

(** What [list(g)] returns once [g] has been run part of the way. *)
Lemma drain_advances {A} (g : gen A) s xs g' s' :
  advances g s xs g' s' ->
  gen_drain g s =
  match gen_drain g' s' with
  | (Ret ys, s2) => (Ret (xs ++ ys)%list, s2)
  | (Raise e, s2) => (Raise e, s2)
  end.
Proof.
  induction 1 as [g s | a rest s xs g' s' _ IH | X m k s x s1 xs g' s' Hm _ IH].
  - destruct (gen_drain g s) as [[ys|e] s2]; reflexivity.
  - simpl. unfold bind. rewrite IH.
    destruct (gen_drain g' s') as [[ys|e] s2]; reflexivity.
  - simpl. rewrite Hm. exact IH.
Qed.

Lemma drain_advances_stop {A} (g : gen A) s xs s' :
  advances g s xs GStop s' -> gen_drain g s = (Ret xs, s').
Proof.
  intros Hadv. rewrite (drain_advances _ _ _ _ _ Hadv). simpl.
  now rewrite app_nil_r.
Qed.

(** The elements yielded on the way are the first ones a consumer
    gets. *)
Lemma take_advances {A} (g : gen A) s xs g' s' :
  advances g s xs g' s' ->
  exists s1, gen_take (List.length xs) g s = (Ret xs, s1).
Proof.
  induction 1 as [g s | a rest s xs g' s' _ IH | X m k s x s1 xs g' s' Hm _ IH].
  - exists s. reflexivity.
  - destruct IH as [s2 IH]. exists s2. simpl List.length.
    rewrite gen_take_yield, IH. reflexivity.
  - destruct xs as [|y ys].
    + exists s. reflexivity.
    + destruct IH as [s2 IH]. exists s2. simpl List.length in *.
      rewrite gen_take_do, Hm. exact IH.
Qed.

(** If the code reached then raises, so does the pull after them. *)
Lemma take_advances_raise {A} (g : gen A) s xs g' s' e s2 :
  advances g s xs g' s' ->
  gen_next g' s' = (Raise e, s2) ->
  gen_take (S (List.length xs)) g s = (Raise e, s2).
Proof.
  induction 1 as [g s | a rest s xs g' s' _ IH | X m k s x s1 xs g' s' Hm _ IH];
    intros Hnext.
  - simpl. unfold bind. rewrite Hnext. reflexivity.
  - simpl List.length. rewrite gen_take_yield, (IH Hnext). reflexivity.
  - rewrite gen_take_do, Hm. exact (IH Hnext).
Qed.

Lemma drain_advances_raise {A} (g : gen A) s xs g' s' e s2 :
  advances g s xs g' s' ->
  gen_next g' s' = (Raise e, s2) ->
  gen_drain g s = (Raise e, s2).
Proof.
  intros Hadv Hnext. rewrite (drain_advances _ _ _ _ _ Hadv).
  assert (Hd : gen_drain g' s' = (Raise e, s2)).
  { clear Hadv. revert s' Hnext.
    induction g' as [| a rest _ | X m k IH]; intros s' Hnext; simpl in *.
    - discriminate.
    - discriminate.
    - destruct (m s') as [[x|e'] s1]; [now apply IH | congruence]. }
  now rewrite Hd.
Qed.

Lemma advances_then {A} (g1 g2 : gen A) s xs s1 ys g' s' :
  advances g1 s xs GStop s1 ->
  advances g2 s1 ys g' s' ->
  advances (gen_then g1 g2) s (xs ++ ys)%list g' s'.
Proof.
  intros H1 H2. remember GStop as stop eqn:Hstop.
  induction H1 as [g s | a rest s xs g0 s0 _ IH | X m k s x s0 xs g0 s3 Hm _ IH].
  - subst g. exact H2.
  - simpl. apply adv_yield. now apply IH.
  - simpl. eapply adv_do; [exact Hm|]. now apply IH.
Qed.

Lemma advances_yield_each {A B} (h : A -> B) (items : list A) s :
  advances (gen_for_list items (fun x => GYield (h x) GStop)) s
           (map h items) GStop s.
Proof.
  induction items as [|x items IH]; simpl.
  - apply adv_here.
  - apply adv_yield. exact IH.
Qed.

(** A filtered generator whose source runs dry without a match. *)
Lemma filter_none {A} (test : A -> outcome bool) (g : gen A) :
  forall s xs s',
    gen_drain g s = (Ret xs, s') ->
    Forall (fun x => test x = Ret false) xs ->
    gen_next (gen_filter test g) s = (Ret None, s').
Proof.
  induction g as [| a rest IH | X m k IH]; intros s xs s' Hdrain Hall.
  - simpl in *. unfold ret in *. congruence.
  - simpl in Hdrain. unfold bind in Hdrain.
    destruct (gen_drain rest s) as [[ys|e] s2] eqn:E; [|discriminate].
    unfold ret in Hdrain. injection Hdrain as <- <-.
    inversion Hall as [|? ? Ha Hys]; subst.
    simpl. rewrite Ha. now apply (IH s ys).
  - simpl in *. destruct (m s) as [[x|e] s1]; [|discriminate].
    now apply (IH x s1 xs).
Qed.

(** A filtered generator stops at the first element that passes. *)
Lemma filter_first {A} (test : A -> outcome bool) (g : gen A) :
  forall before s c s',
    gen_take (S (List.length before)) g s = (Ret (before ++ [c])%list, s') ->
    Forall (fun x => test x = Ret false) before ->
    test c = Ret true ->
    exists g', gen_next (gen_filter test g) s = (Ret (Some (c, g')), s').
Proof.
  induction g as [| a rest IH | X m k IH]; intros before s c s' Htake Hall Hc.
  - simpl in Htake. unfold bind, ret in Htake.
    injection Htake as Hnil _. destruct before; discriminate.
  - rewrite gen_take_yield in Htake.
    destruct (gen_take (List.length before) rest s) as [[ys|e] s2] eqn:E;
      [|discriminate].
    injection Htake as Hxs <-.
    destruct before as [|b before'].
    + simpl in E. unfold ret in E. injection E as <- <-.
      simpl in Hxs. injection Hxs as ->.
      simpl. rewrite Hc. eexists. reflexivity.
    + simpl in Hxs. injection Hxs as -> ->.
      inversion Hall as [|? ? Hb Hrest]; subst.
      simpl. rewrite Hb. now apply (IH before').
  - rewrite gen_take_do in Htake. simpl.
    destruct (m s) as [[x|e] s1]; [|discriminate].
    now apply (IH x before).
Qed.

(** A filtered generator fails where the test fails, if that is before
    any element passes. *)
Lemma filter_first_abort {A} (test : A -> outcome bool) (g : gen A) e :
  forall before s c s',
    gen_take (S (List.length before)) g s = (Ret (before ++ [c])%list, s') ->
    Forall (fun x => test x = Ret false) before ->
    test c = Raise e ->
    gen_next (gen_filter test g) s = (Raise e, s').
Proof.
  induction g as [| a rest IH | X m k IH]; intros before s c s' Htake Hall Hc.
  - simpl in Htake. unfold bind, ret in Htake.
    injection Htake as Hnil _. destruct before; discriminate.
  - rewrite gen_take_yield in Htake.
    destruct (gen_take (List.length before) rest s) as [[ys|x] s2] eqn:E;
      [|discriminate].
    injection Htake as Hxs <-.
    destruct before as [|b before'].
    + simpl in E. unfold ret in E. injection E as <- <-.
      simpl in Hxs. injection Hxs as ->.
      simpl. rewrite Hc. reflexivity.
    + simpl in Hxs. injection Hxs as -> ->.
      inversion Hall as [|? ? Hb Hrest]; subst.
      simpl. rewrite Hb. now apply (IH before' s c s2).
  - rewrite gen_take_do in Htake. simpl.
    destruct (m s) as [[x|x] s1]; [|discriminate].
    now apply (IH x before s1 c s').
Qed.

End Generators.

(* ================================================================== *)
(** ** Brands *)

Section Brands.

Context `{Env}.

Lemma lookup_absent key d :
  ~ In key (dict_keys d) -> dict_lookup key d = None.
Proof.
  induction d as [|[k v] d IH]; intros Hnot; simpl; [reflexivity|].
  destruct (String.eqb_spec k key) as [->|Hne].
  - exfalso. apply Hnot. now left.
  - apply IH. intros Hin. apply Hnot. now right.
Qed.

Lemma init_raises_type_error entry e :
  Brand.init entry = Raise e -> e = TypeError.
Proof.
  unfold Brand.init. intros Hinit.
  repeat match type of Hinit with
         | context [match ?x with _ => _ end] => destruct x
         end; congruence.
Qed.

Lemma init_misfit d : misfit d -> Brand.init (PyDict d) = Raise TypeError.
Proof.
  intros Hbad. unfold Brand.init.
  destruct (forallb _ (dict_keys d)) eqn:Hkeys; [|reflexivity].
  destruct Hbad as [(k & Hk & Hextra) | (f & Hf & Hmissing)].
  - exfalso. rewrite forallb_forall in Hkeys.
    specialize (Hkeys k Hk). apply existsb_exists in Hkeys.
    destruct Hkeys as (x & Hx & Heq). apply String.eqb_eq in Heq. now subst x.
  - pose proof (lookup_absent _ _ Hmissing) as Hnone.
    simpl in Hf.
    destruct Hf as [<-|[<-|[<-|[<-|[<-|[]]]]]]; rewrite Hnone;
      repeat match goal with
             | |- context [match ?x with _ => _ end] => destruct x
             end; reflexivity.
Qed.

Lemma construct_all_misfit entries entry :
  In entry entries -> Brand.init entry = Raise TypeError ->
  construct_all entries = Raise TypeError.
Proof.
  intros Hin Hbad. induction entries as [|e rest IH]; [contradiction|].
  simpl. destruct (Brand.init e) as [b|x] eqn:He.
  - destruct Hin as [->|Hin]; [congruence|].
    simpl. now rewrite (IH Hin).
  - simpl. now rewrite (init_raises_type_error _ _ He).
Qed.

Lemma brands_loop_cons entry rest :
  brands_loop (entry :: rest) =
  GDo (lift (Brand.init entry)) (fun b => GYield b (brands_loop rest)).
Proof. reflexivity. Qed.

Lemma drain_brands_loop entries (s : state) :
  gen_drain (brands_loop entries) s = (construct_all entries, s).
Proof.
  induction entries as [|e rest IH]; [reflexivity|].
  rewrite brands_loop_cons. simpl. unfold lift.
  destruct (Brand.init e) as [b|x]; [|reflexivity].
  simpl. unfold bind. rewrite IH.
  destruct (construct_all rest); reflexivity.
Qed.

Lemma brand_entries_field data entries :
  field_at brands_path data = Some (PyList entries) ->
  brand_entries data = Ret entries.
Proof.
  unfold brands_path, brand_entries. simpl. intros Hfield.
  destruct data as [| | | | | |d]; try discriminate. simpl.
  destruct (dict_lookup "content" d) as [content|]; [|discriminate]. simpl.
  destruct content as [| | | | | |c]; try discriminate. simpl.
  destruct (dict_lookup "genres" c) as [genres|]; [|discriminate]. simpl.
  destruct genres as [| | | | | |g]; try discriminate. simpl.
  destruct (dict_lookup "brands" g) as [brands|]; [|discriminate]. simpl.
  now injection Hfield as ->.
Qed.

Lemma brands_start self (s : state) data s1 entries :
  _data self s = (Ret data, s1) ->
  brand_entries data = Ret entries ->
  (data <- _data self ;; lift (brand_entries data)) s = (Ret entries, s1).
Proof.
  intros Hdata Hentries. unfold bind, lift. now rewrite Hdata, Hentries.
Qed.

Lemma drain_brands self (s : state) data s1 entries :
  _data self s = (Ret data, s1) ->
  field_at brands_path data = Some (PyList entries) ->
  gen_drain (_brands self) s = (construct_all entries, s1).
Proof.
  intros Hdata Hfield. unfold _brands. simpl.
  rewrite (brands_start _ _ _ _ _ Hdata (brand_entries_field _ _ Hfield)).
  apply drain_brands_loop.
Qed.

(** C4 (what the code does).  When the [content] key is absent the
    first pull from [_brands] raises [AttributeError]; when [genres] or
    [brands] is absent it raises [TypeError].  At no level does an
    absent key give the empty sequence. *)
Theorem absent_level_raises self (s : state) d s1 :
  _data self s = (Ret (PyDict d), s1) ->
  (dict_lookup "content" d = None ->
   gen_next (_brands self) s = (Raise AttributeError, s1)) /\
  (forall c, dict_lookup "content" d = Some (PyDict c) ->
             dict_lookup "genres" c = None ->
             gen_next (_brands self) s = (Raise TypeError, s1)) /\
  (forall c g, dict_lookup "content" d = Some (PyDict c) ->
               dict_lookup "genres" c = Some (PyDict g) ->
               dict_lookup "brands" g = None ->
               gen_next (_brands self) s = (Raise TypeError, s1)).
Proof.
  intros Hdata. unfold _brands. simpl. unfold bind, lift. rewrite Hdata.
  unfold brand_entries. simpl. repeat split.
  - intros ->. reflexivity.
  - intros c -> Hg. simpl. rewrite Hg. reflexivity.
  - intros c g -> Hg Hb. simpl. rewrite Hg. simpl. rewrite Hb. reflexivity.
Qed.

(** C5.  A [brands] entry with a key outside the five fields, or
    without one of them, cannot be made into a [Brand]: construction
    raises [TypeError], and enumerating [_brands] raises it too instead
    of passing over the entry. *)
Theorem misfit_brand_entry_raises self (s : state) data s1 entries d :
  _data self s = (Ret data, s1) ->
  field_at brands_path data = Some (PyList entries) ->
  In (PyDict d) entries ->
  misfit d ->
  Brand.init (PyDict d) = Raise TypeError /\
  gen_drain (_brands self) s = (Raise TypeError, s1).
Proof.
  intros Hdata Hfield Hin Hbad.
  pose proof (init_misfit _ Hbad) as Hinit. split; [exact Hinit|].
  rewrite (drain_brands _ _ _ _ _ Hdata Hfield).
  now rewrite (construct_all_misfit _ _ Hin Hinit).
Qed.

(** C6.  When the embedded state of the root page has the single entry
    of the example as its [content.genres.brands], [_brands] yields
    exactly one [Brand] and its [oid] is ["abc"].  In general [oid] is
    the [$oid] field of the mapping in [_id], or [None] when that
    mapping has no such field. *)
Theorem single_brand_example self (s : state) data s1 :
  _data self s = (Ret data, s1) ->
  field_at brands_path data = Some (PyList [example_brand_entry]) ->
  (exists b, gen_drain (_brands self) s = (Ret [b], s1) /\
             Brand.oid b = Ret (PyStr "abc")) /\
  (forall b ident, Brand._id b = PyDict ident ->
                   Brand.oid b = Ret (get_or_none "$oid" ident)).
Proof.
  intros Hdata Hfield. split.
  - rewrite (drain_brands _ _ _ _ _ Hdata Hfield). simpl.
    eexists. split; reflexivity.
  - intros b ident Hid. unfold Brand.oid, py_get, get_or_none. rewrite Hid.
    destruct (dict_lookup "$oid" ident); reflexivity.
Qed.

End Brands.

(* ================================================================== *)
(** ** Channels *)

Section Channels.

Context `{Env}.

Lemma same_state (s : state) : {| net := net s; trace := trace s |} = s.
Proof. destruct s. reflexivity. Qed.

(** One turn of the outer loop of [channels] on a brand whose listing
    arrives. *)
Lemma advances_brand_channels self b (s : state) r w j listing :
  requests_get (genre_url self b) (net s) = (Ret r, w) ->
  json_loads (text r) = Loaded j ->
  field_at ["channels"] j = Some (PyList listing) ->
  advances (brand_channels self b) s (map (channel_of self) listing) GStop
           {| net := w; trace := trace s ++ [EvGet (genre_url self b)] |}.
Proof.
  intros Hget Hjson Hfield. unfold brand_channels. cbv zeta.
  eapply adv_do.
  - unfold bind, http_get. rewrite Hget. unfold lift, response_json.
    rewrite Hjson. simpl in Hfield |- *.
    destruct j as [| | | | | |d]; try discriminate. simpl.
    destruct (dict_lookup "channels" d) as [v|]; [|discriminate].
    injection Hfield as ->. reflexivity.
  - exact (advances_yield_each (channel_of self) listing _).
Qed.

Lemma brand_loop_step self entry rest :
  gen_for (brands_loop (entry :: rest)) (brand_channels self) =
  GDo (lift (Brand.init entry))
      (fun b => gen_then (brand_channels self b)
                         (gen_for (brands_loop rest) (brand_channels self))).
Proof. reflexivity. Qed.

(** The outer loop of [channels] run over the entries [done], whose
    brands are all served: it has yielded their channels, made their
    requests, and stands before [rest]. *)
Lemma advances_channels_loop self rest :
  forall done bs listings w0 w1 tr,
    construct_all done = Ret bs ->
    served self w0 bs listings w1 ->
    advances (gen_for (brands_loop (done ++ rest)) (brand_channels self))
             {| net := w0; trace := tr |}
             (listed self listings)
             (gen_for (brands_loop rest) (brand_channels self))
             {| net := w1; trace := tr ++ genre_requests self bs |}.
Proof.
  induction done as [|e done IH]; intros bs listings w0 w1 tr Hall Hserved.
  - simpl in Hall. injection Hall as <-.
    inversion Hserved; subst. simpl. rewrite app_nil_r. apply adv_here.
  - simpl in Hall.
    destruct (Brand.init e) as [b|] eqn:He; [|discriminate]. simpl in Hall.
    destruct (construct_all done) as [bs'|] eqn:Hdone; [|discriminate].
    simpl in Hall. injection Hall as <-.
    inversion Hserved as [|? ? ? r w' j listing listings' ? Hget Hjson Hfield Hrest];
      subst.
    change ((e :: done) ++ rest)%list with (e :: (done ++ rest))%list.
    rewrite brand_loop_step.
    eapply adv_do.
    + unfold lift. rewrite He. reflexivity.
    + change (listed self (listing :: listings'))
        with (map (channel_of self) listing ++ listed self listings')%list.
      apply advances_then with
        (s1 := {| net := w'; trace := tr ++ [EvGet (genre_url self b)] |}).
      * exact (advances_brand_channels self b {| net := w0; trace := tr |}
                 r w' j listing Hget Hjson Hfield).
      * replace (tr ++ genre_requests self (b :: bs'))%list
          with ((tr ++ [EvGet (genre_url self b)]) ++ genre_requests self bs')%list
          by (rewrite <- app_assoc; reflexivity).
        exact (IH bs' listings' w' w1 _ eq_refl Hrest).
Qed.

Lemma advances_channels self (s : state) data s0 done rest bs listings w1 :
  _data self s = (Ret data, s0) ->
  field_at brands_path data = Some (PyList (done ++ rest)) ->
  construct_all done = Ret bs ->
  served self (net s0) bs listings w1 ->
  advances (channels self) s (listed self listings)
           (gen_for (brands_loop rest) (brand_channels self))
           {| net := w1; trace := trace s0 ++ genre_requests self bs |}.
Proof.
  intros Hdata Hfield Hall Hserved. unfold channels, _brands. simpl.
  eapply adv_do.
  - exact (brands_start _ _ _ _ _ Hdata (brand_entries_field _ _ Hfield)).
  - rewrite <- (same_state s0) at 1.
    exact (advances_channels_loop self rest done bs listings _ _ _ Hall Hserved).
Qed.

(** C7.  When every brand's request to
    [<base>/c/m/json/genre/?param=<brand.param>] is answered with a
    body that decodes to an object with a [channels] array, [channels]
    makes exactly those requests, in order, after the one for the root
    page, and yields exactly one [Channel] per entry of each array.
    For the single brand with param ["p"] and the answer of the
    example, that is one [Channel] with id ["1"], name ["A"] and no
    logo. *)
Theorem channels_lists_every_entry self :
  (forall (s : state) data s0 entries bs listings w1,
     _data self s = (Ret data, s0) ->
     field_at brands_path data = Some (PyList entries) ->
     construct_all entries = Ret bs ->
     served self (net s0) bs listings w1 ->
     gen_drain (channels self) s =
     (Ret (listed self listings),
      {| net := w1; trace := trace s0 ++ genre_requests self bs |})) /\
  (forall (s : state) data s0 entry brand r w1,
     _data self s = (Ret data, s0) ->
     field_at brands_path data = Some (PyList [entry]) ->
     Brand.init entry = Ret brand ->
     Brand.param brand = PyStr "p" ->
     requests_get (Service.url self ++ "/c/m/json/genre/?param=p") (net s0)
     = (Ret r, w1) ->
     json_loads (text r) = Loaded example_listing ->
     exists c,
       gen_drain (channels self) s =
       (Ret [c],
        {| net := w1;
           trace := trace s0
                    ++ [EvGet (Service.url self ++ "/c/m/json/genre/?param=p")] |}) /\
       Channel.id c = Ret (PyStr "1") /\
       Channel.name c = Ret (PyStr "A") /\
       Channel.logo c = PyNone).
Proof.
  assert (General : forall (s : state) data s0 entries bs listings w1,
     _data self s = (Ret data, s0) ->
     field_at brands_path data = Some (PyList entries) ->
     construct_all entries = Ret bs ->
     served self (net s0) bs listings w1 ->
     gen_drain (channels self) s =
     (Ret (listed self listings),
      {| net := w1; trace := trace s0 ++ genre_requests self bs |})).
  { intros s data s0 entries bs listings w1 Hdata Hfield Hall Hserved.
    apply drain_advances_stop.
    rewrite <- (app_nil_r entries) in Hfield.
    exact (advances_channels self s data s0 entries [] bs listings w1
             Hdata Hfield Hall Hserved). }
  split; [exact General|].
  intros s data s0 entry brand r w1 Hdata Hfield Hinit Hparam Hget Hjson.
  exists (channel_of self example_channel_entry).
  split; [|repeat split].
  assert (Hurl : genre_url self brand
                 = Service.url self ++ "/c/m/json/genre/?param=p").
  { unfold genre_url. now rewrite Hparam. }
  rewrite (General s data s0 [entry] [brand] [[example_channel_entry]] w1
             Hdata Hfield).
  - unfold listed, genre_requests. simpl. now rewrite Hparam.
  - simpl. now rewrite Hinit.
  - eapply served_next.
    + rewrite Hurl. exact Hget.
    + exact Hjson.
    + reflexivity.
    + apply served_none.
Qed.

(** C8 (amended).  As long as the id of every channel it scans can be
    read, [get_channel_by_id] returns the first channel of a fresh
    enumeration of [channels] whose id equals the one asked for, having
    enumerated no further than that channel, and returns [None] when the
    enumeration ends without such a channel.  A channel whose id cannot
    be read, met before any channel with that id, ends the lookup with
    the exception of its [id]. *)
Theorem get_channel_by_id_first_match self channel_id (s : state) :
  (forall before c s',
     gen_take (S (List.length before)) (channels self) s
     = (Ret (before ++ [c])%list, s') ->
     Forall (has_other_id channel_id) before ->
     has_id channel_id c ->
     get_channel_by_id self channel_id s = (Ret (Some c), s')) /\
  (forall every s',
     gen_drain (channels self) s = (Ret every, s') ->
     Forall (has_other_id channel_id) every ->
     get_channel_by_id self channel_id s = (Ret None, s')) /\
  (forall before c s' e,
     gen_take (S (List.length before)) (channels self) s
     = (Ret (before ++ [c])%list, s') ->
     Forall (has_other_id channel_id) before ->
     Channel.id c = Raise e ->
     get_channel_by_id self channel_id s = (Raise e, s')).
Proof.
  assert (Hother : forall cs, Forall (has_other_id channel_id) cs ->
                              Forall (fun x => id_matches channel_id x = Ret false) cs).
  { intros cs Hcs. eapply Forall_impl; [|exact Hcs].
    intros x (i & Hi & Hne). unfold id_matches. rewrite Hi. simpl. now rewrite Hne. }
  split; [|split].
  - intros before c s' Htake Hbefore (i & Hi & Heq).
    assert (Hc : id_matches channel_id c = Ret true).
    { unfold id_matches. rewrite Hi. simpl. now rewrite Heq. }
    destruct (filter_first _ _ _ _ _ _ Htake (Hother _ Hbefore) Hc) as [g' Hnext].
    unfold get_channel_by_id, bind. rewrite Hnext. reflexivity.
  - intros every s' Hdrain Hevery.
    unfold get_channel_by_id, bind.
    rewrite (filter_none _ _ _ _ _ Hdrain (Hother _ Hevery)). reflexivity.
  - intros before c s' e Htake Hbefore Hid.
    assert (Hc : id_matches channel_id c = Raise e).
    { unfold id_matches. now rewrite Hid. }
    unfold get_channel_by_id, bind.
    rewrite (filter_first_abort _ _ _ _ _ _ _ Htake (Hother _ Hbefore) Hc).
    reflexivity.
Qed.

(** C10.  When the answer to some brand's genre request decodes to an
    object without a [channels] key, the channels of the brands before
    it can still be pulled, and the pull that moves on to that brand
    raises [TypeError]; the missing key is not taken for an empty
    listing. *)
Theorem missing_channels_key_raises
        self (s : state) data s0 done entry rest bs b listings w1 r w2 d :
  _data self s = (Ret data, s0) ->
  field_at brands_path data = Some (PyList (done ++ entry :: rest)) ->
  construct_all done = Ret bs ->
  Brand.init entry = Ret b ->
  served self (net s0) bs listings w1 ->
  requests_get (genre_url self b) w1 = (Ret r, w2) ->
  json_loads (text r) = Loaded (PyDict d) ->
  dict_lookup "channels" d = None ->
  (exists s1, gen_take (List.length (listed self listings)) (channels self) s
              = (Ret (listed self listings), s1)) /\
  gen_take (S (List.length (listed self listings))) (channels self) s
  = (Raise TypeError,
     {| net := w2;
        trace := (trace s0 ++ genre_requests self bs)
                 ++ [EvGet (genre_url self b)] |}) /\
  gen_drain (channels self) s
  = (Raise TypeError,
     {| net := w2;
        trace := (trace s0 ++ genre_requests self bs)
                 ++ [EvGet (genre_url self b)] |}).
Proof.
  intros Hdata Hfield Hall Hinit Hserved Hget Hjson Hmissing.
  pose proof (advances_channels self s data s0 done (entry :: rest) bs listings w1
                Hdata Hfield Hall Hserved) as Hadv.
  assert (Hnext :
    gen_next (gen_for (brands_loop (entry :: rest)) (brand_channels self))
             {| net := w1; trace := trace s0 ++ genre_requests self bs |}
    = (Raise TypeError,
       {| net := w2;
          trace := (trace s0 ++ genre_requests self bs)
                   ++ [EvGet (genre_url self b)] |})).
  { rewrite brand_loop_step. simpl. unfold lift at 1. rewrite Hinit.
    unfold bind, http_get. simpl. rewrite Hget.
    unfold lift, response_json. rewrite Hjson. simpl. rewrite Hmissing.
    reflexivity. }
  split; [|split].
  - exact (take_advances _ _ _ _ _ Hadv).
  - exact (take_advances_raise _ _ _ _ _ _ _ Hadv Hnext).
  - exact (drain_advances_raise _ _ _ _ _ _ _ Hadv Hnext).
Qed.

End Channels.

(* ================================================================== *)
(** ** The accessors of [Channel] *)

(** C9 (amended).  On a channel that wraps a mapping, [name] and
    [description] return the field, or [None] when it is missing, and
    never fail; [id] returns [None] when [_id] is missing, and the
    [$oid] field of [_id] (or [None] when that is missing) when [_id] is
    itself a mapping.  When [_id] is there and is not a mapping, [id]
    raises [AttributeError].  None of them touches the state. *)
Theorem channel_accessors_on_mappings (c : Channel.t) d :
  Channel._data c = PyDict d ->
  Channel.name c = Ret (get_or_none "name" d) /\
  Channel.description c = Ret (get_or_none "description" d) /\
  (dict_lookup "_id" d = None -> Channel.id c = Ret PyNone) /\
  (forall ident, dict_lookup "_id" d = Some (PyDict ident) ->
                 Channel.id c = Ret (get_or_none "$oid" ident)) /\
  (forall v, dict_lookup "_id" d = Some v ->
             (forall ident, v <> PyDict ident) ->
             Channel.id c = Raise AttributeError).
Proof.
  intros Hd.
  unfold Channel.name, Channel.description, Channel.id, py_get, get_or_none.
  rewrite Hd. repeat split.
  - destruct (dict_lookup "name" d); reflexivity.
  - destruct (dict_lookup "description" d); reflexivity.
  - intros ->. reflexivity.
  - intros ident ->. simpl. destruct (dict_lookup "$oid" ident); reflexivity.
  - intros v -> Hnot. simpl.
    destruct v as [| | | | | |ident]; try reflexivity.
    now destruct (Hnot ident).
Qed.

(* ================================================================== *)
(** ** The statements at work on concrete pages *)

Lemma embedsb_sound page pre content post :
  embedsb page pre content post = true -> embeds page pre content post.
Proof.
  unfold embedsb. intros Hb.
  apply andb_prop in Hb as [Hb Hend]. apply andb_prop in Hb as [Hpage Hstart].
  apply String.eqb_eq in Hpage. repeat split.
  - exact Hpage.
  - intros j Hj. apply (nowhere_in_sound _ _ _ _ Hstart). lia.
  - intros j Hj. apply (nowhere_in_sound _ _ _ _ Hend). lia.
Qed.

Lemma parse_returns_decoded_content_witness :
  embeds Fixture.root_page Fixture.page_pre Fixture.root_content Fixture.page_post /\
  @json_loads Fixture.env (Fixture.root_content ++ "}") = Loaded Fixture.root_state /\
  @_parse_configuration_from_source Fixture.env Fixture.root_page
    (Fixture.after Fixture.table [])
  = (Ret Fixture.root_state, Fixture.after Fixture.table []).
Proof.
  assert (Hemb : embeds Fixture.root_page Fixture.page_pre
                        Fixture.root_content Fixture.page_post)
    by (apply embedsb_sound; vm_compute; reflexivity).
  assert (Hjson : @json_loads Fixture.env (Fixture.root_content ++ "}")
                  = Loaded Fixture.root_state)
    by (vm_compute; reflexivity).
  split; [exact Hemb | split; [exact Hjson|]].
  exact (@parse_returns_decoded_content Fixture.env _ _ _ _ _
           (Fixture.after Fixture.table []) Hemb Hjson).
Defined.

(** Checks on strings are run by the virtual machine; goals that mention
    states are left to conversion, which does not normalise the
    environment inside their types. *)
Ltac by_running :=
  lazymatch goal with
  | |- @eq bool _ _ => vm_compute; reflexivity
  | |- _ => reflexivity
  end.

Lemma missing_marker_raises_witness :
  (forall j, ~ occurs_at start_marker Fixture.unmarked_page j) /\
  @_parse_configuration_from_source Fixture.env Fixture.unmarked_page
    (Fixture.after Fixture.table [])
  = (Raise (MarkerNotFound
      "Could not find starting marker __PRELOADED_STATE__ = in text: <html></html>"),
     Fixture.after Fixture.table []) /\
  first_at start_marker Fixture.unclosed_page 0 7 /\
  (forall j, 7 + String.length start_marker <= j ->
             ~ occurs_at end_marker Fixture.unclosed_page j) /\
  @_parse_configuration_from_source Fixture.env Fixture.unclosed_page
    (Fixture.after Fixture.table [])
  = (Raise (MarkerNotFound
      "Could not find end marker }</script> in text: window.__PRELOADED_STATE__ = {"),
     Fixture.after Fixture.table []).
Proof.
  assert (Hnone : forall j, ~ occurs_at start_marker Fixture.unmarked_page j)
    by (apply nowhere_in_absent; by_running).
  assert (Hfirst : first_at start_marker Fixture.unclosed_page 0 7).
  { split; [lia|]. split.
    - exists "window.", " {". split; reflexivity.
    - intros j Hj.
      apply (nowhere_in_sound start_marker Fixture.unclosed_page 0 7);
        [by_running | lia]. }
  assert (Hopen : forall j, 7 + String.length start_marker <= j ->
                            ~ occurs_at end_marker Fixture.unclosed_page j)
    by (intros j _; revert j; apply nowhere_in_absent; by_running).
  destruct (@missing_marker_raises Fixture.env Fixture.unmarked_page
              (Fixture.after Fixture.table [])) as [Hstart _].
  destruct (@missing_marker_raises Fixture.env Fixture.unclosed_page
              (Fixture.after Fixture.table [])) as [_ Hend].
  split; [exact Hnone|]. split; [exact (Hstart Hnone)|].
  split; [exact Hfirst|]. split; [exact Hopen|].
  exact (Hend 7 Hfirst Hopen).
Defined.

Lemma undecodable_slice_raises_witness :
  embeds Fixture.undecodable_page Fixture.page_pre
         Fixture.undecodable_content Fixture.page_post /\
  @json_loads Fixture.env (Fixture.undecodable_content ++ "}") = LoadsValueError /\
  @_parse_configuration_from_source Fixture.env Fixture.undecodable_page
    (Fixture.after Fixture.table [])
  = (Raise (InvalidData (Fixture.undecodable_content ++ "}")),
     {| net := (Fixture.table : @world Fixture.env);
        trace := [EvLogError "Unable to parse data as json."] |}).
Proof.
  assert (Hemb : embeds Fixture.undecodable_page Fixture.page_pre
                        Fixture.undecodable_content Fixture.page_post)
    by (apply embedsb_sound; by_running).
  assert (Hjson : @json_loads Fixture.env (Fixture.undecodable_content ++ "}")
                  = LoadsValueError)
    by by_running.
  split; [exact Hemb | split; [exact Hjson|]].
  exact (@undecodable_slice_raises Fixture.env _ _ _ _
           (Fixture.after Fixture.table []) Hemb Hjson).
Defined.

Lemma absent_level_raises_witness :
  @_data Fixture.env Service.init
    (Fixture.after [(Fixture.root_url, Fixture.no_content_page)] [])
  = (Ret (PyDict []),
     Fixture.after [(Fixture.root_url, Fixture.no_content_page)] [Fixture.root_url]) /\
  @gen_next Fixture.env _ (_brands Service.init)
    (Fixture.after [(Fixture.root_url, Fixture.no_content_page)] [])
  = (Raise AttributeError,
     Fixture.after [(Fixture.root_url, Fixture.no_content_page)] [Fixture.root_url]) /\
  @_data Fixture.env Service.init
    (Fixture.after [(Fixture.root_url, Fixture.no_genres_page)] [])
  = (Ret (PyDict [("content", PyDict [])]),
     Fixture.after [(Fixture.root_url, Fixture.no_genres_page)] [Fixture.root_url]) /\
  @gen_next Fixture.env _ (_brands Service.init)
    (Fixture.after [(Fixture.root_url, Fixture.no_genres_page)] [])
  = (Raise TypeError,
     Fixture.after [(Fixture.root_url, Fixture.no_genres_page)] [Fixture.root_url]) /\
  @_data Fixture.env Service.init
    (Fixture.after [(Fixture.root_url, Fixture.no_brands_page)] [])
  = (Ret (PyDict [("content", PyDict [("genres", PyDict [])])]),
     Fixture.after [(Fixture.root_url, Fixture.no_brands_page)] [Fixture.root_url]) /\
  @gen_next Fixture.env _ (_brands Service.init)
    (Fixture.after [(Fixture.root_url, Fixture.no_brands_page)] [])
  = (Raise TypeError,
     Fixture.after [(Fixture.root_url, Fixture.no_brands_page)] [Fixture.root_url]).
Proof.
  assert (Hcontent : @_data Fixture.env Service.init
            (Fixture.after [(Fixture.root_url, Fixture.no_content_page)] [])
          = (Ret (PyDict []),
             Fixture.after [(Fixture.root_url, Fixture.no_content_page)]
                           [Fixture.root_url]))
    by by_running.
  assert (Hgenres : @_data Fixture.env Service.init
            (Fixture.after [(Fixture.root_url, Fixture.no_genres_page)] [])
          = (Ret (PyDict [("content", PyDict [])]),
             Fixture.after [(Fixture.root_url, Fixture.no_genres_page)]
                           [Fixture.root_url]))
    by by_running.
  assert (Hbrands : @_data Fixture.env Service.init
            (Fixture.after [(Fixture.root_url, Fixture.no_brands_page)] [])
          = (Ret (PyDict [("content", PyDict [("genres", PyDict [])])]),
             Fixture.after [(Fixture.root_url, Fixture.no_brands_page)]
                           [Fixture.root_url]))
    by by_running.
  split; [exact Hcontent|]. split.
  { exact (proj1 (@absent_level_raises Fixture.env Service.init _ _ _ Hcontent)
                 eq_refl). }
  split; [exact Hgenres|]. split.
  { exact (proj1 (proj2 (@absent_level_raises Fixture.env Service.init _ _ _ Hgenres))
                 [] eq_refl eq_refl). }
  split; [exact Hbrands|].
  exact (proj2 (proj2 (@absent_level_raises Fixture.env Service.init _ _ _ Hbrands))
               [("genres", PyDict [])] [] eq_refl eq_refl eq_refl).
Defined.

Lemma misfit_brand_entry_raises_witness :
  @_data Fixture.env Service.init
    (Fixture.after [(Fixture.root_url, Fixture.nameless_page)] [])
  = (Ret (Fixture.state_with (PyList [PyDict Fixture.nameless_entry])),
     Fixture.after [(Fixture.root_url, Fixture.nameless_page)] [Fixture.root_url]) /\
  field_at brands_path (Fixture.state_with (PyList [PyDict Fixture.nameless_entry]))
  = Some (PyList [PyDict Fixture.nameless_entry]) /\
  In (PyDict Fixture.nameless_entry) [PyDict Fixture.nameless_entry] /\
  misfit Fixture.nameless_entry /\
  Brand.init (PyDict Fixture.nameless_entry) = Raise TypeError /\
  @gen_drain Fixture.env _ (_brands Service.init)
    (Fixture.after [(Fixture.root_url, Fixture.nameless_page)] [])
  = (Raise TypeError,
     Fixture.after [(Fixture.root_url, Fixture.nameless_page)] [Fixture.root_url]).
Proof.
  assert (Hdata : @_data Fixture.env Service.init
            (Fixture.after [(Fixture.root_url, Fixture.nameless_page)] [])
          = (Ret (Fixture.state_with (PyList [PyDict Fixture.nameless_entry])),
             Fixture.after [(Fixture.root_url, Fixture.nameless_page)]
                           [Fixture.root_url]))
    by by_running.
  assert (Hfield : field_at brands_path
                     (Fixture.state_with (PyList [PyDict Fixture.nameless_entry]))
                   = Some (PyList [PyDict Fixture.nameless_entry]))
    by reflexivity.
  assert (Hin : In (PyDict Fixture.nameless_entry) [PyDict Fixture.nameless_entry])
    by (left; reflexivity).
  assert (Hbad : misfit Fixture.nameless_entry).
  { right. exists "name". split.
    - simpl. tauto.
    - simpl. intuition discriminate. }
  split; [exact Hdata|]. split; [exact Hfield|].
  split; [exact Hin|]. split; [exact Hbad|].
  exact (@misfit_brand_entry_raises Fixture.env Service.init _ _ _ _ _
           Hdata Hfield Hin Hbad).
Defined.

Lemma single_brand_example_witness :
  @_data Fixture.env Service.init (Fixture.after Fixture.table [])
  = (Ret Fixture.root_state, Fixture.after Fixture.table [Fixture.root_url]) /\
  field_at brands_path Fixture.root_state = Some (PyList [example_brand_entry]) /\
  (exists b,
     @gen_drain Fixture.env _ (_brands Service.init) (Fixture.after Fixture.table [])
     = (Ret [b], Fixture.after Fixture.table [Fixture.root_url]) /\
     Brand.oid b = Ret (PyStr "abc")) /\
  Brand.oid Fixture.brand_p = Ret (PyStr "abc").
Proof.
  assert (Hdata : @_data Fixture.env Service.init (Fixture.after Fixture.table [])
                  = (Ret Fixture.root_state,
                     Fixture.after Fixture.table [Fixture.root_url]))
    by by_running.
  assert (Hfield : field_at brands_path Fixture.root_state
                   = Some (PyList [example_brand_entry]))
    by reflexivity.
  destruct (@single_brand_example Fixture.env Service.init _ _ _ Hdata Hfield)
    as [Hone Hoid].
  split; [exact Hdata|]. split; [exact Hfield|]. split; [exact Hone|].
  exact (Hoid Fixture.brand_p [("$oid", PyStr "abc")] eq_refl).
Defined.

Lemma served_by_table :
  @served Fixture.env Service.init Fixture.table [Fixture.brand_p]
          [[example_channel_entry]] Fixture.table.
Proof.
  eapply (@served_next Fixture.env Service.init Fixture.table Fixture.brand_p []
            {| text := Fixture.genre_body |} Fixture.table example_listing).
  - by_running.
  - by_running.
  - reflexivity.
  - apply served_none.
Defined.

Lemma channels_lists_every_entry_witness :
  @_data Fixture.env Service.init (Fixture.after Fixture.table [])
  = (Ret Fixture.root_state, Fixture.after Fixture.table [Fixture.root_url]) /\
  field_at brands_path Fixture.root_state = Some (PyList [example_brand_entry]) /\
  construct_all [example_brand_entry] = Ret [Fixture.brand_p] /\
  @served Fixture.env Service.init Fixture.table [Fixture.brand_p]
          [[example_channel_entry]] Fixture.table /\
  @gen_drain Fixture.env _ (channels Service.init) (Fixture.after Fixture.table [])
  = (Ret [channel_of Service.init example_channel_entry],
     Fixture.after Fixture.table [Fixture.root_url; Fixture.genre_p_url]) /\
  (exists c,
     @gen_drain Fixture.env _ (channels Service.init) (Fixture.after Fixture.table [])
     = (Ret [c],
        Fixture.after Fixture.table [Fixture.root_url; Fixture.genre_p_url]) /\
     Channel.id c = Ret (PyStr "1") /\
     Channel.name c = Ret (PyStr "A") /\
     Channel.logo c = PyNone).
Proof.
  assert (Hdata : @_data Fixture.env Service.init (Fixture.after Fixture.table [])
                  = (Ret Fixture.root_state,
                     Fixture.after Fixture.table [Fixture.root_url]))
    by by_running.
  assert (Hfield : field_at brands_path Fixture.root_state
                   = Some (PyList [example_brand_entry]))
    by reflexivity.
  assert (Hall : construct_all [example_brand_entry] = Ret [Fixture.brand_p])
    by reflexivity.
  destruct (@channels_lists_every_entry Fixture.env Service.init)
    as [Hgeneral Hexample].
  split; [exact Hdata|]. split; [exact Hfield|]. split; [exact Hall|].
  split; [exact served_by_table|]. split.
  - exact (Hgeneral _ _ _ _ _ _ _ Hdata Hfield Hall served_by_table).
  - refine (Hexample (Fixture.after Fixture.table []) Fixture.root_state
              (Fixture.after Fixture.table [Fixture.root_url])
              example_brand_entry Fixture.brand_p
              {| text := Fixture.genre_body |} Fixture.table
              Hdata Hfield _ _ _ _); by_running.
Defined.

Lemma get_channel_by_id_first_match_witness :
  @gen_take Fixture.env _ 2 (channels Service.init)
    (Fixture.after Fixture.two_channel_table [])
  = (Ret [channel_of Service.init Fixture.other_channel_entry;
          channel_of Service.init example_channel_entry],
     Fixture.after Fixture.two_channel_table
                   [Fixture.root_url; Fixture.genre_p_url]) /\
  has_other_id (PyStr "1") (channel_of Service.init Fixture.other_channel_entry) /\
  has_id (PyStr "1") (channel_of Service.init example_channel_entry) /\
  @get_channel_by_id Fixture.env Service.init (PyStr "1")
    (Fixture.after Fixture.two_channel_table [])
  = (Ret (Some (channel_of Service.init example_channel_entry)),
     Fixture.after Fixture.two_channel_table
                   [Fixture.root_url; Fixture.genre_p_url]) /\
  @get_channel_by_id Fixture.env Service.init (PyStr "missing")
    (Fixture.after Fixture.two_channel_table [])
  = (Ret None,
     Fixture.after Fixture.two_channel_table
                   [Fixture.root_url; Fixture.genre_p_url]) /\
  @gen_take Fixture.env _ 2 (channels Service.init)
    (Fixture.after Fixture.null_listing_table [])
  = (Ret [channel_of Service.init Fixture.other_channel_entry;
          channel_of Service.init Fixture.null_id_entry],
     Fixture.after Fixture.null_listing_table
                   [Fixture.root_url; Fixture.genre_p_url]) /\
  Channel.id (channel_of Service.init Fixture.null_id_entry) = Raise AttributeError /\
  @get_channel_by_id Fixture.env Service.init (PyStr "1")
    (Fixture.after Fixture.null_listing_table [])
  = (Raise AttributeError,
     Fixture.after Fixture.null_listing_table
                   [Fixture.root_url; Fixture.genre_p_url]).
Proof.
  assert (Hnulltake : @gen_take Fixture.env _ 2 (channels Service.init)
            (Fixture.after Fixture.null_listing_table [])
          = (Ret [channel_of Service.init Fixture.other_channel_entry;
                  channel_of Service.init Fixture.null_id_entry],
             Fixture.after Fixture.null_listing_table
                           [Fixture.root_url; Fixture.genre_p_url]))
    by by_running.
  assert (Hnull : Channel.id (channel_of Service.init Fixture.null_id_entry)
                  = Raise AttributeError)
    by reflexivity.
  assert (Htake : @gen_take Fixture.env _ 2 (channels Service.init)
            (Fixture.after Fixture.two_channel_table [])
          = (Ret [channel_of Service.init Fixture.other_channel_entry;
                  channel_of Service.init example_channel_entry],
             Fixture.after Fixture.two_channel_table
                           [Fixture.root_url; Fixture.genre_p_url]))
    by by_running.
  assert (Hdrain : @gen_drain Fixture.env _ (channels Service.init)
            (Fixture.after Fixture.two_channel_table [])
          = (Ret [channel_of Service.init Fixture.other_channel_entry;
                  channel_of Service.init example_channel_entry],
             Fixture.after Fixture.two_channel_table
                           [Fixture.root_url; Fixture.genre_p_url]))
    by by_running.
  assert (Hother : has_other_id (PyStr "1")
                     (channel_of Service.init Fixture.other_channel_entry))
    by (exists (PyStr "0"); split; reflexivity).
  assert (Hsame : has_id (PyStr "1") (channel_of Service.init example_channel_entry))
    by (exists (PyStr "1"); split; reflexivity).
  assert (Hnone : Forall (has_other_id (PyStr "missing"))
                    [channel_of Service.init Fixture.other_channel_entry;
                     channel_of Service.init example_channel_entry]).
  { constructor; [exists (PyStr "0"); split; reflexivity|].
    constructor; [exists (PyStr "1"); split; reflexivity|]. constructor. }
  destruct (@get_channel_by_id_first_match Fixture.env Service.init (PyStr "1")
              (Fixture.after Fixture.two_channel_table [])) as [Hfound _].
  destruct (@get_channel_by_id_first_match Fixture.env Service.init (PyStr "missing")
              (Fixture.after Fixture.two_channel_table [])) as [_ [Habsent _]].
  destruct (@get_channel_by_id_first_match Fixture.env Service.init (PyStr "1")
              (Fixture.after Fixture.null_listing_table [])) as [_ [_ Hraise]].
  split; [exact Htake|]. split; [exact Hother|]. split; [exact Hsame|]. split.
  - exact (Hfound [channel_of Service.init Fixture.other_channel_entry]
             (channel_of Service.init example_channel_entry) _ Htake
             (Forall_cons _ Hother (Forall_nil _)) Hsame).
  - split; [exact (Habsent _ _ Hdrain Hnone)|].
    split; [exact Hnulltake|]. split; [exact Hnull|].
    exact (Hraise [channel_of Service.init Fixture.other_channel_entry]
             (channel_of Service.init Fixture.null_id_entry) _ AttributeError
             Hnulltake (Forall_cons _ Hother (Forall_nil _)) Hnull).
Defined.

Lemma missing_channels_key_raises_witness :
  @_data Fixture.env Service.init (Fixture.after Fixture.keyless_table [])
  = (Ret (Fixture.state_with (PyList [example_brand_entry; Fixture.entry_q])),
     Fixture.after Fixture.keyless_table [Fixture.root_url]) /\
  construct_all [example_brand_entry] = Ret [Fixture.brand_p] /\
  Brand.init Fixture.entry_q = Ret Fixture.brand_q /\
  @served Fixture.env Service.init Fixture.keyless_table [Fixture.brand_p]
          [[example_channel_entry]] Fixture.keyless_table /\
  @json_loads Fixture.env Fixture.keyless_body = Loaded (PyDict [("stations", PyList [])]) /\
  dict_lookup "channels" [("stations", PyList [])] = None /\
  (exists s1,
     @gen_take Fixture.env _ 1 (channels Service.init)
       (Fixture.after Fixture.keyless_table [])
     = (Ret [channel_of Service.init example_channel_entry], s1)) /\
  @gen_take Fixture.env _ 2 (channels Service.init)
    (Fixture.after Fixture.keyless_table [])
  = (Raise TypeError,
     Fixture.after Fixture.keyless_table
       [Fixture.root_url; Fixture.genre_p_url; Fixture.genre_q_url]) /\
  @gen_drain Fixture.env _ (channels Service.init)
    (Fixture.after Fixture.keyless_table [])
  = (Raise TypeError,
     Fixture.after Fixture.keyless_table
       [Fixture.root_url; Fixture.genre_p_url; Fixture.genre_q_url]).
Proof.
  assert (Hdata : @_data Fixture.env Service.init
            (Fixture.after Fixture.keyless_table [])
          = (Ret (Fixture.state_with (PyList [example_brand_entry; Fixture.entry_q])),
             Fixture.after Fixture.keyless_table [Fixture.root_url]))
    by by_running.
  assert (Hfield : field_at brands_path
            (Fixture.state_with (PyList [example_brand_entry; Fixture.entry_q]))
          = Some (PyList ([example_brand_entry] ++ Fixture.entry_q :: [])%list))
    by reflexivity.
  assert (Hall : construct_all [example_brand_entry] = Ret [Fixture.brand_p])
    by reflexivity.
  assert (Hinit : Brand.init Fixture.entry_q = Ret Fixture.brand_q)
    by reflexivity.
  assert (Hserved : @served Fixture.env Service.init Fixture.keyless_table
                      [Fixture.brand_p] [[example_channel_entry]]
                      Fixture.keyless_table).
  { eapply (@served_next Fixture.env Service.init Fixture.keyless_table
              Fixture.brand_p [] {| text := Fixture.genre_body |}
              Fixture.keyless_table example_listing).
    - by_running.
    - by_running.
    - reflexivity.
    - apply served_none. }
  assert (Hget : @requests_get Fixture.env (@genre_url Fixture.env Service.init Fixture.brand_q)
                   Fixture.keyless_table
                 = (Ret {| text := Fixture.keyless_body |}, Fixture.keyless_table))
    by by_running.
  assert (Hjson : @json_loads Fixture.env Fixture.keyless_body
                  = Loaded (PyDict [("stations", PyList [])]))
    by by_running.
  assert (Hmissing : dict_lookup "channels" [("stations", PyList [])] = None)
    by reflexivity.
  split; [exact Hdata|]. split; [exact Hall|]. split; [exact Hinit|].
  split; [exact Hserved|]. split; [exact Hjson|]. split; [exact Hmissing|].
  exact (@missing_channels_key_raises Fixture.env Service.init
           (Fixture.after Fixture.keyless_table []) _ _
           [example_brand_entry] Fixture.entry_q [] [Fixture.brand_p]
           Fixture.brand_q [[example_channel_entry]] Fixture.keyless_table
           {| text := Fixture.keyless_body |} Fixture.keyless_table
           [("stations", PyList [])]
           Hdata Hfield Hall Hinit Hserved Hget Hjson Hmissing).
Defined.

Lemma channel_accessors_on_mappings_witness :
  Channel._data (channel_of Service.init example_channel_entry)
  = PyDict [("_id", PyDict [("$oid", PyStr "1")]);
            ("name", PyStr "A");
            ("description", PyStr "d")] /\
  Channel.name (channel_of Service.init example_channel_entry) = Ret (PyStr "A") /\
  Channel.description (channel_of Service.init example_channel_entry)
  = Ret (PyStr "d") /\
  Channel.id (channel_of Service.init example_channel_entry) = Ret (PyStr "1") /\
  Channel.id (channel_of Service.init (PyDict [("name", PyStr "A")])) = Ret PyNone /\
  Channel.description (channel_of Service.init (PyDict [("name", PyStr "A")]))
  = Ret PyNone.
Proof.
  destruct (channel_accessors_on_mappings
              (channel_of Service.init example_channel_entry) _ eq_refl)
    as (Hname & Hdescription & _ & Hid & _).
  destruct (channel_accessors_on_mappings
              (channel_of Service.init (PyDict [("name", PyStr "A")])) _ eq_refl)
    as (_ & Hnodescription & Hnoid & _ & _).
  split; [reflexivity|]. split; [exact Hname|]. split; [exact Hdescription|].
  split; [exact (Hid [("$oid", PyStr "1")] eq_refl)|].
  split; [exact (Hnoid eq_refl) | exact Hnodescription].
Defined.

(** The claim that [id] never fails on a channel wrapping a mapping does
    not hold: with [_id] present and [null], [id] looks for [get] on
    [None]. *)
Lemma id_raises_on_null_identifier :
  Channel._data null_id_channel = PyDict [("_id", PyNone); ("name", PyStr "A")] /\
  Channel.id null_id_channel = Raise AttributeError /\
  ~ (forall c d, Channel._data c = PyDict d -> exists v, Channel.id c = Ret v).
Proof.
  split; [reflexivity|]. split; [reflexivity|].
  intros Hnever.
  destruct (Hnever null_id_channel _ eq_refl) as [v Hv]. discriminate Hv.
Qed.

(** The claim about [get_channel_by_id] without the proviso on readable
    ids does not hold: in a listing whose second entry has a [null]
    identifier, the first (and only) channel with id ["1"] is the third,
    yet the lookup of ["1"] raises; and no channel has the id
    ["missing"], yet that lookup raises too instead of giving [None]. *)
Lemma lookup_raises_past_null_identifier :
  @gen_drain Fixture.env _ (channels Service.init)
    (Fixture.after Fixture.null_listing_table [])
  = (Ret [channel_of Service.init Fixture.other_channel_entry;
          channel_of Service.init Fixture.null_id_entry;
          channel_of Service.init example_channel_entry],
     Fixture.after Fixture.null_listing_table
                   [Fixture.root_url; Fixture.genre_p_url]) /\
  ~ has_id (PyStr "1") (channel_of Service.init Fixture.other_channel_entry) /\
  ~ has_id (PyStr "1") (channel_of Service.init Fixture.null_id_entry) /\
  has_id (PyStr "1") (channel_of Service.init example_channel_entry) /\
  @get_channel_by_id Fixture.env Service.init (PyStr "1")
    (Fixture.after Fixture.null_listing_table [])
  = (Raise AttributeError,
     Fixture.after Fixture.null_listing_table
                   [Fixture.root_url; Fixture.genre_p_url]) /\
  Forall (fun c => ~ has_id (PyStr "missing") c)
         [channel_of Service.init Fixture.other_channel_entry;
          channel_of Service.init Fixture.null_id_entry;
          channel_of Service.init example_channel_entry] /\
  @get_channel_by_id Fixture.env Service.init (PyStr "missing")
    (Fixture.after Fixture.null_listing_table [])
  = (Raise AttributeError,
     Fixture.after Fixture.null_listing_table
                   [Fixture.root_url; Fixture.genre_p_url]).
Proof.
  split; [by_running|].
  split; [intros (i & Hi & Heq); vm_compute in Hi; injection Hi as <-;
          vm_compute in Heq; discriminate|].
  split; [intros (i & Hi & _); vm_compute in Hi; discriminate|].
  split; [exists (PyStr "1"); split; reflexivity|].
  split; [by_running|].
  split; [|by_running].
  repeat constructor.
  - intros (i & Hi & Heq). vm_compute in Hi. injection Hi as <-.
    vm_compute in Heq. discriminate.
  - intros (i & Hi & _). vm_compute in Hi. discriminate.
  - intros (i & Hi & Heq). vm_compute in Hi. injection Hi as <-.
    vm_compute in Heq. discriminate.
Qed.

(* ================================================================== *)
(** ** Further properties: the extractor *)

Section ExtractorEffects.

Context `{Env}.

(** The extractor leaves the servers alone and writes at most one entry
    to the log. *)
Lemma parse_state page (s : state) :
  net (snd (_parse_configuration_from_source page s)) = net s /\
  (trace (snd (_parse_configuration_from_source page s)) = trace s \/
   trace (snd (_parse_configuration_from_source page s))
   = (trace s ++ [EvLogError "Unable to parse data as json."])%list).
Proof.
  unfold _parse_configuration_from_source. cbv zeta.
  destruct (_ =? -1)%Z; [split; [reflexivity | left; reflexivity]|].
  destruct (_ =? -1)%Z; [split; [reflexivity | left; reflexivity]|].
  destruct (json_loads _); simpl; split; auto.
Qed.

(** When decoding the repaired slice ends in an exception that is not a
    [ValueError], the extractor lets it through as it is and logs
    nothing. *)
Theorem parse_passes_decoder_error page pre content post e (s : state) :
  embeds page pre content post ->
  json_loads (content ++ "}") = LoadsRaises e ->
  _parse_configuration_from_source page s = (Raise e, s).
Proof.
  intros Hemb He. rewrite (parse_embedded _ _ _ _ Hemb), He. reflexivity.
Qed.

Lemma app_split_str :
  forall x x' y y',
    x ++ y = x' ++ y' -> String.length x <= String.length x' ->
    exists c, x' = x ++ c /\ y = c ++ y'.
Proof.
  induction x as [|a x IH]; intros x' y y' Heq Hlen.
  - exists x'. split; [reflexivity | exact Heq].
  - destruct x' as [|a' x']; simpl in Hlen; [lia|].
    simpl in Heq. injection Heq as -> Heq.
    destruct (IH x' y y' Heq) as (c & -> & ->); [lia|].
    exists c. split; reflexivity.
Qed.

Lemma index_some_first sub s n i :
  sub <> EmptyString -> String.index n sub s = Some i -> first_at sub s n i.
Proof.
  intros Hne Hidx. repeat split.
  - exact (index_from _ _ _ _ Hidx).
  - apply substring_occurs; [exact Hne|]. exact (index_correct1 _ _ _ _ Hidx).
  - intros j [Hnj Hji] Hocc.
    apply (index_correct2 _ _ _ _ Hidx j Hnj Hji).
    now apply occurs_substring.
Qed.

Lemma index_none_absent sub s n :
  sub <> EmptyString -> String.index n sub s = None ->
  forall k, n <= k -> ~ occurs_at sub s k.
Proof.
  intros Hne Hidx k Hk Hocc.
  apply (index_correct3 _ k _ _ Hidx Hne Hk). now apply occurs_substring.
Qed.

(** A first start marker and a first end marker after the cursor are all
    it takes for the page to embed what lies between them. *)
Lemma first_markers_embed page i j :
  first_at start_marker page 0 i ->
  first_at end_marker page (i + String.length start_marker) j ->
  exists pre content post, embeds page pre content post.
Proof.
  intros (_ & (a & b & Hpage & Ha) & Hfirst) (Hle & (a' & b' & Hpage' & Ha') & Hnone).
  assert (Hsplit : exists c, a' = (a ++ start_marker) ++ c /\
                             b = c ++ end_marker ++ b').
  { apply app_split_str.
    - rewrite app_assoc_str. congruence.
    - rewrite length_app. lia. }
  destruct Hsplit as (c & Hc & Hb).
  exists a, c, b'. repeat split.
  - rewrite Hpage, Hb. reflexivity.
  - intros k Hk. apply Hfirst. lia.
  - intros k Hk. apply Hnone.
    rewrite <- Ha', Hc, !length_app. lia.
Qed.

(** Every page falls under one of three cases, and in each the outcome
    is fixed.  Without a start marker, [MarkerNotFound] names it.  With
    a start marker but no end marker at or after the cursor,
    [MarkerNotFound] names the end marker.  Otherwise the page embeds
    some content between the first start marker and the first end
    marker after it, and the outcome is that of decoding the content
    with one brace appended: the decoded value, or [InvalidData] with
    that text after one log entry, or the decoder's other exception.
    So a value is only ever returned as the decoding of the repaired
    slice, and the state changes only by that log entry. *)
Theorem parse_cases page (s : state) :
  ((forall k, ~ occurs_at start_marker page k) /\
   _parse_configuration_from_source page s
   = (Raise (MarkerNotFound ("Could not find starting marker " ++ start_marker
                             ++ " in text: " ++ page)), s)) \/
  (exists i,
     first_at start_marker page 0 i /\
     (forall k, i + String.length start_marker <= k -> ~ occurs_at end_marker page k) /\
     _parse_configuration_from_source page s
     = (Raise (MarkerNotFound ("Could not find end marker " ++ end_marker
                               ++ " in text: " ++ page)), s)) \/
  (exists pre content post,
     embeds page pre content post /\
     ((exists v, json_loads (content ++ "}") = Loaded v /\
                 _parse_configuration_from_source page s = (Ret v, s)) \/
      (json_loads (content ++ "}") = LoadsValueError /\
       _parse_configuration_from_source page s
       = (Raise (InvalidData (content ++ "}")),
          {| net := net s;
             trace := trace s ++ [EvLogError "Unable to parse data as json."] |})) \/
      (exists e, json_loads (content ++ "}") = LoadsRaises e /\
                 _parse_configuration_from_source page s = (Raise e, s)))).
Proof.
  destruct (String.index 0 start_marker page) as [i|] eqn:Hstart.
  - pose proof (index_some_first _ _ _ _ start_marker_nonempty Hstart) as Hi.
    right.
    destruct (String.index (i + String.length start_marker) end_marker page)
      as [j|] eqn:Hend.
    + right.
      pose proof (index_some_first _ _ _ _ end_marker_nonempty Hend) as Hj.
      destruct (first_markers_embed page i j Hi Hj) as (pre & content & post & Hemb).
      exists pre, content, post. split; [exact Hemb|].
      rewrite (parse_embedded _ _ _ _ Hemb).
      destruct (json_loads (content ++ "}")) as [v| |e].
      * left. exists v. split; reflexivity.
      * right. left. split; reflexivity.
      * right. right. exists e. split; reflexivity.
    + left. exists i.
      pose proof (index_none_absent _ _ _ end_marker_nonempty Hend) as Habs.
      split; [exact Hi|]. split; [exact Habs|].
      unfold _parse_configuration_from_source. cbv zeta.
      change 0%Z with (Z.of_nat 0).
      rewrite (find_first _ _ _ _ start_marker_nonempty Hi).
      destruct (Z.eqb_spec (Z.of_nat i) (-1)); [lia|].
      rewrite <- Nat2Z.inj_add.
      rewrite (find_absent _ _ _ end_marker_nonempty Habs).
      reflexivity.
  - left.
    pose proof (index_none_absent _ _ _ start_marker_nonempty Hstart) as Habs.
    assert (Hnone : forall k, ~ occurs_at start_marker page k)
      by (intros k; apply Habs; lia).
    split; [exact Hnone|].
    unfold _parse_configuration_from_source. cbv zeta.
    change 0%Z with (Z.of_nat 0).
    rewrite (find_absent _ _ _ start_marker_nonempty Habs).
    reflexivity.
Qed.

End ExtractorEffects.

(* ================================================================== *)
(** ** Further properties: [Brand] *)

Lemma lookup_some_in key d v :
  dict_lookup key d = Some v -> In key (dict_keys d).
Proof.
  induction d as [|[k w] d IH]; simpl; [discriminate|].
  destruct (String.eqb_spec k key) as [->|Hne]; intros Hv.
  - now left.
  - right. now apply IH.
Qed.

Lemma in_lookup_some key d :
  In key (dict_keys d) -> exists v, dict_lookup key d = Some v.
Proof.
  induction d as [|[k w] d IH]; simpl; [contradiction|].
  intros [Heq | Hin].
  - subst k. rewrite String.eqb_refl. now exists w.
  - destruct (String.eqb k key); [now exists w | now apply IH].
Qed.

(** [Brand] can be made from a mapping exactly when its keys are the
    five field names, no more and no fewer; every field of the result
    is then the value the mapping has under that name, whatever its
    type. *)
Theorem brand_init_exact d :
  ((exists b, Brand.init (PyDict d) = Ret b) <->
   (forall k, In k (dict_keys d) <-> In k Brand.fields)) /\
  (forall b, Brand.init (PyDict d) = Ret b ->
             dict_lookup "channels" d = Some (Brand.channels b) /\
             dict_lookup "_id" d = Some (Brand._id b) /\
             dict_lookup "canonical_url" d = Some (Brand.canonical_url b) /\
             dict_lookup "param" d = Some (Brand.param b) /\
             dict_lookup "name" d = Some (Brand.name b)).
Proof.
  assert (Hfields : forall b, Brand.init (PyDict d) = Ret b ->
             dict_lookup "channels" d = Some (Brand.channels b) /\
             dict_lookup "_id" d = Some (Brand._id b) /\
             dict_lookup "canonical_url" d = Some (Brand.canonical_url b) /\
             dict_lookup "param" d = Some (Brand.param b) /\
             dict_lookup "name" d = Some (Brand.name b)).
  { intros b. unfold Brand.init.
    destruct (forallb _ (dict_keys d)); [|discriminate].
    destruct (dict_lookup "channels" d); [|discriminate].
    destruct (dict_lookup "_id" d); [|discriminate].
    destruct (dict_lookup "canonical_url" d); [|discriminate].
    destruct (dict_lookup "param" d); [|discriminate].
    destruct (dict_lookup "name" d); [|discriminate].
    intros [= <-]. simpl. repeat split. }
  split; [|exact Hfields]. split.
  - intros [b Hb] k. split.
    + intros Hk. unfold Brand.init in Hb.
      destruct (forallb _ (dict_keys d)) eqn:Hkeys; [|discriminate].
      rewrite forallb_forall in Hkeys. specialize (Hkeys k Hk).
      apply existsb_exists in Hkeys. destruct Hkeys as (x & Hx & Heq).
      apply String.eqb_eq in Heq. now subst x.
    + intros Hk. destruct (Hfields b Hb) as (Hc & Hi & Hu & Hp & Hn).
      simpl in Hk.
      destruct Hk as [<-|[<-|[<-|[<-|[<-|[]]]]]];
        eapply lookup_some_in; eassumption.
  - intros Hsame. unfold Brand.init.
    assert (Hkeys : forallb (fun k => existsb (String.eqb k) Brand.fields)
                            (dict_keys d) = true).
    { apply forallb_forall. intros k Hk. apply existsb_exists.
      exists k. split; [now apply Hsame | apply String.eqb_refl]. }
    rewrite Hkeys.
    destruct (in_lookup_some "channels" d) as [c ->];
      [apply Hsame; simpl; tauto|].
    destruct (in_lookup_some "_id" d) as [i ->];
      [apply Hsame; simpl; tauto|].
    destruct (in_lookup_some "canonical_url" d) as [u ->];
      [apply Hsame; simpl; tauto|].
    destruct (in_lookup_some "param" d) as [p ->];
      [apply Hsame; simpl; tauto|].
    destruct (in_lookup_some "name" d) as [n ->];
      [apply Hsame; simpl; tauto|].
    eexists. reflexivity.
Qed.

(* ================================================================== *)
(** ** Further properties: [media_uri] *)

Section MediaUri.

Context `{Env}.

(** When the channel's id can be read and the sweeper endpoint answers
    with an object, [media_uri] makes that one request and returns the
    [audio] of the object's [creative], or [None] when the object has no
    [creative] or the creative has no [audio]. *)
Theorem media_uri_resolves (c : Channel.t) (s : state) i r w d :
  Channel.id c = Ret i ->
  requests_get (sweeper_request c i) (net s) = (Ret r, w) ->
  json_loads (text r) = Loaded (PyDict d) ->
  (dict_lookup "creative" d = None ->
   Channel.media_uri c s
   = (Ret PyNone,
      {| net := w; trace := trace s ++ [EvGet (sweeper_request c i)] |})) /\
  (forall creative,
     dict_lookup "creative" d = Some (PyDict creative) ->
     Channel.media_uri c s
     = (Ret (get_or_none "audio" creative),
        {| net := w; trace := trace s ++ [EvGet (sweeper_request c i)] |})).
Proof.
  intros Hid Hget Hjson.
  unfold Channel.media_uri, bind, lift, http_get. rewrite Hid. cbv zeta.
  fold (sweeper_request c i). rewrite Hget.
  unfold response_json. rewrite Hjson. simpl. split.
  - intros ->. reflexivity.
  - intros creative ->. simpl. unfold get_or_none.
    destruct (dict_lookup "audio" creative); reflexivity.
Qed.

(** How [media_uri] fails.  If the id cannot be read, the exception of
    [id] comes out and no request is made.  If the request fails, its
    exception comes out.  If the body is not JSON the decoder's error
    comes out, and if it is JSON but not an object, or its [creative] is
    not an object, [AttributeError] does; in each of these the one
    request has been made. *)
Theorem media_uri_failures (c : Channel.t) (s : state) :
  (forall e, Channel.id c = Raise e -> Channel.media_uri c s = (Raise e, s)) /\
  (forall i e w,
     Channel.id c = Ret i ->
     requests_get (sweeper_request c i) (net s) = (Raise e, w) ->
     Channel.media_uri c s
     = (Raise e, {| net := w; trace := trace s ++ [EvGet (sweeper_request c i)] |})) /\
  (forall i r w,
     Channel.id c = Ret i ->
     requests_get (sweeper_request c i) (net s) = (Ret r, w) ->
     json_loads (text r) = LoadsValueError ->
     Channel.media_uri c s
     = (Raise JSONDecodeError,
        {| net := w; trace := trace s ++ [EvGet (sweeper_request c i)] |})) /\
  (forall i r w j,
     Channel.id c = Ret i ->
     requests_get (sweeper_request c i) (net s) = (Ret r, w) ->
     json_loads (text r) = Loaded j ->
     (forall d, j = PyDict d ->
                exists v, dict_lookup "creative" d = Some v /\
                          forall creative, v <> PyDict creative) ->
     Channel.media_uri c s
     = (Raise AttributeError,
        {| net := w; trace := trace s ++ [EvGet (sweeper_request c i)] |})).
Proof.
  repeat split.
  - intros e Hid. unfold Channel.media_uri, bind, lift. now rewrite Hid.
  - intros i e w Hid Hget.
    unfold Channel.media_uri, bind, lift, http_get. rewrite Hid. cbv zeta.
    fold (sweeper_request c i). now rewrite Hget.
  - intros i r w Hid Hget Hjson.
    unfold Channel.media_uri, bind, lift, http_get. rewrite Hid. cbv zeta.
    fold (sweeper_request c i). rewrite Hget.
    unfold response_json. now rewrite Hjson.
  - intros i r w j Hid Hget Hjson Hshape.
    unfold Channel.media_uri, bind, lift, http_get. rewrite Hid. cbv zeta.
    fold (sweeper_request c i). rewrite Hget.
    unfold response_json. rewrite Hjson. simpl.
    destruct j as [| | | | | |d]; try reflexivity.
    destruct (Hshape d eq_refl) as (v & Hv & Hnot). simpl. rewrite Hv. simpl.
    destruct v as [| | | | | |creative]; try reflexivity.
    now destruct (Hnot creative).
Qed.

End MediaUri.

(* ================================================================== *)
(** ** Further properties: the catalog *)

Section Catalog.

Context `{Env}.

Lemma brand_entries_iter data v :
  field_at brands_path data = Some v -> brand_entries data = py_iter v.
Proof.
  unfold brands_path, brand_entries. simpl. intros Hfield.
  destruct data as [| | | | | |d]; try discriminate. simpl.
  destruct (dict_lookup "content" d) as [content|]; [|discriminate]. simpl.
  destruct content as [| | | | | |c]; try discriminate. simpl.
  destruct (dict_lookup "genres" c) as [genres|]; [|discriminate]. simpl.
  destruct genres as [| | | | | |g]; try discriminate. simpl.
  destruct (dict_lookup "brands" g) as [brands|]; [|discriminate]. simpl.
  now injection Hfield as ->.
Qed.

Lemma channels_start self :
  channels self =
  GDo (data <- _data self ;; lift (brand_entries data))
      (fun entries => gen_for (brands_loop entries) (brand_channels self)).
Proof. reflexivity. Qed.

Lemma filtered_channels_start self test :
  gen_filter test (channels self) =
  GDo (data <- _data self ;; lift (brand_entries data))
      (fun entries =>
         gen_filter test (gen_for (brands_loop entries) (brand_channels self))).
Proof. reflexivity. Qed.

Lemma filtered_loop_step self test entry rest :
  gen_filter test (gen_for (brands_loop (entry :: rest)) (brand_channels self)) =
  GDo (lift (Brand.init entry))
      (fun b =>
         GDo (response <- http_get (genre_url self b) ;;
              lift (j <~ response_json response ;
                    listed <~ py_get j "channels" PyNone ;
                    py_iter listed))
             (fun entries =>
                gen_filter test
                  (gen_then (yield_channels self entries)
                            (gen_for (brands_loop rest) (brand_channels self))))).
Proof. reflexivity. Qed.

Lemma yield_channels_cons self entry entries (rest : gen Channel.t) :
  gen_then (yield_channels self (entry :: entries)) rest =
  GYield (channel_of self entry) (gen_then (yield_channels self entries) rest).
Proof. reflexivity. Qed.

(** The filter has been run up to a channel that passes. *)
Lemma filter_hit {A} (test : A -> outcome bool) (g : gen A) s before c rest s' :
  advances g s before (GYield c rest) s' ->
  Forall (fun x => test x = Ret false) before ->
  test c = Ret true ->
  gen_next (gen_filter test g) s = (Ret (Some (c, gen_filter test rest)), s').
Proof.
  intros Hadv. remember (GYield c rest) as target eqn:Htarget.
  induction Hadv as [g s | a r s xs g' s' _ IH | X m k s x s1 xs g' s' Hm _ IH];
    intros Hbefore Hc.
  - subst g. simpl. rewrite Hc. reflexivity.
  - inversion Hbefore as [|? ? Ha Hxs]; subst.
    simpl. rewrite Ha. now apply IH.
  - simpl. rewrite Hm. now apply IH.
Qed.

(** The filter has been run up to a channel on which the test fails. *)
Lemma filter_abort {A} (test : A -> outcome bool) (g : gen A) s before c rest s' e :
  advances g s before (GYield c rest) s' ->
  Forall (fun x => test x = Ret false) before ->
  test c = Raise e ->
  gen_next (gen_filter test g) s = (Raise e, s').
Proof.
  intros Hadv. remember (GYield c rest) as target eqn:Htarget.
  induction Hadv as [g s | a r s xs g' s' _ IH | X m k s x s1 xs g' s' Hm _ IH];
    intros Hbefore Hc.
  - subst g. simpl. rewrite Hc. reflexivity.
  - inversion Hbefore as [|? ? Ha Hxs]; subst.
    simpl. rewrite Ha. now apply IH.
  - simpl. rewrite Hm. now apply IH.
Qed.

Lemma advances_trans {A} (g : gen A) s xs g1 s1 ys g2 s2 :
  advances g s xs g1 s1 ->
  advances g1 s1 ys g2 s2 ->
  advances g s (xs ++ ys)%list g2 s2.
Proof.
  intros H1 H2.
  induction H1 as [g s | a r s xs g' s' _ IH | X m k s x s0 xs g' s' Hm _ IH].
  - exact H2.
  - simpl. apply adv_yield. now apply IH.
  - eapply adv_do; [exact Hm|]. now apply IH.
Qed.

Lemma advances_listing_prefix self before entries (rest : gen Channel.t) s :
  advances (gen_then (yield_channels self (before ++ entries)) rest) s
           (map (channel_of self) before)
           (gen_then (yield_channels self entries) rest) s.
Proof.
  induction before as [|x before IH].
  - apply adv_here.
  - change ((x :: before) ++ entries)%list with (x :: (before ++ entries))%list.
    rewrite yield_channels_cons. simpl map. apply adv_yield. exact IH.
Qed.

Lemma other_ids_fail_test channel_id cs :
  Forall (has_other_id channel_id) cs ->
  Forall (fun x => id_matches channel_id x = Ret false) cs.
Proof.
  intros Hcs. eapply Forall_impl; [|exact Hcs].
  intros x (i & Hi & Hne). unfold id_matches. rewrite Hi. simpl. now rewrite Hne.
Qed.

(** [channels] run until it is about to yield the channel of [x], an
    entry in the listing of the brand that follows the served ones. *)
Lemma advances_to_entry
      self (s : state) data s0 done entry others bs listings w1 b r w2 j
      before x later :
  _data self s = (Ret data, s0) ->
  field_at brands_path data = Some (PyList (done ++ entry :: others)) ->
  construct_all done = Ret bs ->
  served self (net s0) bs listings w1 ->
  Brand.init entry = Ret b ->
  requests_get (genre_url self b) w1 = (Ret r, w2) ->
  json_loads (text r) = Loaded j ->
  field_at ["channels"] j = Some (PyList (before ++ x :: later)) ->
  advances (channels self) s
           (listed self listings ++ map (channel_of self) before)%list
           (GYield (channel_of self x)
                   (gen_then (yield_channels self later)
                             (gen_for (brands_loop others) (brand_channels self))))
           {| net := w2;
              trace := (trace s0 ++ genre_requests self bs)
                       ++ [EvGet (genre_url self b)] |}.
Proof.
  intros Hdata Hfield Hall Hserved Hinit Hget Hjson Hlisting.
  eapply advances_trans.
  - exact (advances_channels self s data s0 done (entry :: others) bs listings w1
             Hdata Hfield Hall Hserved).
  - rewrite brand_loop_step. eapply adv_do.
    { unfold lift. rewrite Hinit. reflexivity. }
    unfold brand_channels. cbv zeta. simpl gen_then. eapply adv_do.
    { unfold bind, http_get. simpl. rewrite Hget. unfold lift, response_json.
      rewrite Hjson. simpl in Hlisting |- *.
      destruct j as [| | | | | |d]; try discriminate. simpl.
      destruct (dict_lookup "channels" d) as [v|]; [|discriminate].
      injection Hlisting as ->. reflexivity. }
    exact (advances_listing_prefix self before (x :: later) _ _).
Qed.

(** A failure of [_data], be it of the request for the root page or of
    the extractor, comes out unchanged from the first pull of [_brands]
    and of [channels], from listing all channels, and from any lookup by
    id; nothing more is requested. *)
Theorem data_failure_surfaces self (s : state) e s1 :
  _data self s = (Raise e, s1) ->
  gen_next (_brands self) s = (Raise e, s1) /\
  gen_next (channels self) s = (Raise e, s1) /\
  gen_drain (channels self) s = (Raise e, s1) /\
  (forall channel_id, get_channel_by_id self channel_id s = (Raise e, s1)).
Proof.
  intros Hdata.
  assert (Hstart : (data <- _data self ;; lift (brand_entries data)) s = (Raise e, s1))
    by (unfold bind; now rewrite Hdata).
  repeat split.
  - unfold _brands. simpl. now rewrite Hstart.
  - rewrite channels_start. simpl. now rewrite Hstart.
  - rewrite channels_start. simpl. now rewrite Hstart.
  - intros channel_id. unfold get_channel_by_id, bind at 1.
    rewrite filtered_channels_start. simpl. now rewrite Hstart.
Qed.

(** A catalog whose [brands] is an empty list, an empty object or an
    empty string has no channels: listing them gives the empty list and
    every lookup by id gives [None], after the request for the root page
    and no other. *)
Theorem empty_catalog self (s : state) data s0 brands :
  _data self s = (Ret data, s0) ->
  field_at brands_path data = Some brands ->
  brands = PyList [] \/ brands = PyDict [] \/ brands = PyStr "" ->
  gen_drain (channels self) s = (Ret [], s0) /\
  (forall channel_id, get_channel_by_id self channel_id s = (Ret None, s0)).
Proof.
  intros Hdata Hfield Hempty.
  assert (Hstart : (data <- _data self ;; lift (brand_entries data)) s = (Ret [], s0)).
  { unfold bind, lift. rewrite Hdata, (brand_entries_iter _ _ Hfield).
    destruct Hempty as [-> | [-> | ->]]; reflexivity. }
  split.
  - rewrite channels_start. simpl. now rewrite Hstart.
  - intros channel_id. unfold get_channel_by_id, bind at 1.
    rewrite filtered_channels_start. simpl. now rewrite Hstart.
Qed.

(** A lookup stops at the first channel with the id asked for: when the
    brands before it are served and no earlier channel has that id, the
    result is that channel and the last request made is the one for its
    brand.  The entries after it in the listing and the brands after its
    brand are not looked at, so nothing about them can make the lookup
    fail. *)
Theorem lookup_stops_at_match
        self channel_id (s : state) data s0 done entry others bs listings w1
        b r w2 j before x later :
  _data self s = (Ret data, s0) ->
  field_at brands_path data = Some (PyList (done ++ entry :: others)) ->
  construct_all done = Ret bs ->
  served self (net s0) bs listings w1 ->
  Brand.init entry = Ret b ->
  requests_get (genre_url self b) w1 = (Ret r, w2) ->
  json_loads (text r) = Loaded j ->
  field_at ["channels"] j = Some (PyList (before ++ x :: later)) ->
  Forall (has_other_id channel_id)
         (listed self listings ++ map (channel_of self) before) ->
  has_id channel_id (channel_of self x) ->
  get_channel_by_id self channel_id s
  = (Ret (Some (channel_of self x)),
     {| net := w2;
        trace := (trace s0 ++ genre_requests self bs)
                 ++ [EvGet (genre_url self b)] |}).
Proof.
  intros Hdata Hfield Hall Hserved Hinit Hget Hjson Hlisting Hearlier (i & Hi & Heq).
  pose proof (advances_to_entry self s data s0 done entry others bs listings w1
                b r w2 j before x later
                Hdata Hfield Hall Hserved Hinit Hget Hjson Hlisting) as Hadv.
  assert (Hx : id_matches channel_id (channel_of self x) = Ret true).
  { unfold id_matches. rewrite Hi. simpl. now rewrite Heq. }
  unfold get_channel_by_id, bind.
  rewrite (filter_hit _ _ _ _ _ _ _ Hadv (other_ids_fail_test _ _ Hearlier) Hx).
  reflexivity.
Qed.

(** A channel whose id cannot be read ends the lookup: when it comes
    before any channel with the id asked for, the exception of its [id]
    comes out of [get_channel_by_id], whatever comes after it. *)
Theorem unreadable_id_aborts_lookup
        self channel_id (s : state) data s0 done entry others bs listings w1
        b r w2 j before x later e :
  _data self s = (Ret data, s0) ->
  field_at brands_path data = Some (PyList (done ++ entry :: others)) ->
  construct_all done = Ret bs ->
  served self (net s0) bs listings w1 ->
  Brand.init entry = Ret b ->
  requests_get (genre_url self b) w1 = (Ret r, w2) ->
  json_loads (text r) = Loaded j ->
  field_at ["channels"] j = Some (PyList (before ++ x :: later)) ->
  Forall (has_other_id channel_id)
         (listed self listings ++ map (channel_of self) before) ->
  Channel.id (channel_of self x) = Raise e ->
  get_channel_by_id self channel_id s
  = (Raise e,
     {| net := w2;
        trace := (trace s0 ++ genre_requests self bs)
                 ++ [EvGet (genre_url self b)] |}).
Proof.
  intros Hdata Hfield Hall Hserved Hinit Hget Hjson Hlisting Hearlier Hid.
  pose proof (advances_to_entry self s data s0 done entry others bs listings w1
                b r w2 j before x later
                Hdata Hfield Hall Hserved Hinit Hget Hjson Hlisting) as Hadv.
  assert (Hx : id_matches channel_id (channel_of self x) = Raise e).
  { unfold id_matches. now rewrite Hid. }
  unfold get_channel_by_id, bind.
  rewrite (filter_abort _ _ _ _ _ _ _ _ Hadv (other_ids_fail_test _ _ Hearlier) Hx).
  reflexivity.
Qed.

End Catalog.

(* ================================================================== *)
(** ** Further properties: failures of the genre endpoint, and fetching *)

Section Fetching.

Context `{Env}.

Lemma gen_next_do {A X} (m : M X) (k : X -> gen A) (s : state) :
  gen_next (GDo m k) s =
  match m s with
  | (Ret x, s1) => gen_next (k x) s1
  | (Raise e, s1) => (Raise e, s1)
  end.
Proof. reflexivity. Qed.

Lemma gen_then_do {A X} (m : M X) (k : X -> gen A) (rest : gen A) :
  gen_then (GDo m k) rest = GDo m (fun x => gen_then (k x) rest).
Proof. reflexivity. Qed.

(** [channels] fails with whatever the first step of the loop body
    fails with, on reaching the brand in question. *)
Lemma channels_fail_at_brand
      self (s : state) data s0 done entry rest bs b listings w1 e s2 :
  _data self s = (Ret data, s0) ->
  field_at brands_path data = Some (PyList (done ++ entry :: rest)) ->
  construct_all done = Ret bs ->
  Brand.init entry = Ret b ->
  served self (net s0) bs listings w1 ->
  (response <- http_get (genre_url self b) ;;
   lift (j <~ response_json response ;
         listed <~ py_get j "channels" PyNone ;
         py_iter listed))
    {| net := w1; trace := trace s0 ++ genre_requests self bs |}
  = (Raise e, s2) ->
  gen_take (S (List.length (listed self listings))) (channels self) s = (Raise e, s2) /\
  gen_drain (channels self) s = (Raise e, s2).
Proof.
  intros Hdata Hfield Hall Hinit Hserved Hstep.
  pose proof (advances_channels self s data s0 done (entry :: rest) bs listings w1
                Hdata Hfield Hall Hserved) as Hadv.
  assert (Hnext :
    gen_next (gen_for (brands_loop (entry :: rest)) (brand_channels self))
             {| net := w1; trace := trace s0 ++ genre_requests self bs |}
    = (Raise e, s2)).
  { rewrite brand_loop_step, gen_next_do. unfold lift at 1. rewrite Hinit.
    unfold brand_channels. cbv zeta.
    rewrite gen_then_do, gen_next_do, Hstep. reflexivity. }
  split.
  - exact (take_advances_raise _ _ _ _ _ _ _ Hadv Hnext).
  - exact (drain_advances_raise _ _ _ _ _ _ _ Hadv Hnext).
Qed.

(** What goes wrong at the genre endpoint of a brand comes out of
    [channels] as it is, once the channels of the brands before it have
    been yielded: the exception of a failed request; the decoder's error
    for a body that is not JSON; [AttributeError] for a body that is
    JSON but not an object; [TypeError] for a [channels] value that
    cannot be iterated. *)
Theorem genre_failure_surfaces
        self (s : state) data s0 done entry rest bs b listings w1 :
  _data self s = (Ret data, s0) ->
  field_at brands_path data = Some (PyList (done ++ entry :: rest)) ->
  construct_all done = Ret bs ->
  Brand.init entry = Ret b ->
  served self (net s0) bs listings w1 ->
  (forall e w2,
     requests_get (genre_url self b) w1 = (Raise e, w2) ->
     gen_take (S (List.length (listed self listings))) (channels self) s
     = (Raise e, {| net := w2;
                    trace := (trace s0 ++ genre_requests self bs)
                             ++ [EvGet (genre_url self b)] |}) /\
     gen_drain (channels self) s
     = (Raise e, {| net := w2;
                    trace := (trace s0 ++ genre_requests self bs)
                             ++ [EvGet (genre_url self b)] |})) /\
  (forall r w2,
     requests_get (genre_url self b) w1 = (Ret r, w2) ->
     json_loads (text r) = LoadsValueError ->
     gen_take (S (List.length (listed self listings))) (channels self) s
     = (Raise JSONDecodeError,
        {| net := w2;
           trace := (trace s0 ++ genre_requests self bs)
                    ++ [EvGet (genre_url self b)] |}) /\
     gen_drain (channels self) s
     = (Raise JSONDecodeError,
        {| net := w2;
           trace := (trace s0 ++ genre_requests self bs)
                    ++ [EvGet (genre_url self b)] |})) /\
  (forall r w2 j,
     requests_get (genre_url self b) w1 = (Ret r, w2) ->
     json_loads (text r) = Loaded j ->
     (forall d, j <> PyDict d) ->
     gen_take (S (List.length (listed self listings))) (channels self) s
     = (Raise AttributeError,
        {| net := w2;
           trace := (trace s0 ++ genre_requests self bs)
                    ++ [EvGet (genre_url self b)] |}) /\
     gen_drain (channels self) s
     = (Raise AttributeError,
        {| net := w2;
           trace := (trace s0 ++ genre_requests self bs)
                    ++ [EvGet (genre_url self b)] |})) /\
  (forall r w2 d v,
     requests_get (genre_url self b) w1 = (Ret r, w2) ->
     json_loads (text r) = Loaded (PyDict d) ->
     dict_lookup "channels" d = Some v ->
     py_iter v = Raise TypeError ->
     gen_take (S (List.length (listed self listings))) (channels self) s
     = (Raise TypeError,
        {| net := w2;
           trace := (trace s0 ++ genre_requests self bs)
                    ++ [EvGet (genre_url self b)] |}) /\
     gen_drain (channels self) s
     = (Raise TypeError,
        {| net := w2;
           trace := (trace s0 ++ genre_requests self bs)
                    ++ [EvGet (genre_url self b)] |})).
Proof.
  intros Hdata Hfield Hall Hinit Hserved.
  pose proof (fun e s2 =>
                channels_fail_at_brand self s data s0 done entry rest bs b listings
                                       w1 e s2 Hdata Hfield Hall Hinit Hserved)
    as Hfail.
  repeat apply conj.
  - intros e w2 Hget. apply Hfail.
    unfold bind, http_get. simpl. now rewrite Hget.
  - intros r w2 Hget Hjson. apply Hfail.
    unfold bind, http_get. simpl. rewrite Hget.
    unfold lift, response_json. now rewrite Hjson.
  - intros r w2 j Hget Hjson Hshape. apply Hfail.
    unfold bind, http_get. simpl. rewrite Hget.
    unfold lift, response_json. rewrite Hjson. simpl.
    destruct j as [| | | | | |d]; try reflexivity.
    now destruct (Hshape d).
  - intros r w2 d v Hget Hjson Hv Hiter. apply Hfail.
    unfold bind, http_get. simpl. rewrite Hget.
    unfold lift, response_json. rewrite Hjson. simpl. rewrite Hv. simpl.
    now rewrite Hiter.
Qed.

(** [_data] asks for the root page once, and the servers are left as
    that request leaves them. *)
Lemma data_state self (s : state) :
  net (snd (_data self s)) = snd (requests_get (Service.url self) (net s)) /\
  (trace (snd (_data self s)) = (trace s ++ [EvGet (Service.url self)])%list \/
   trace (snd (_data self s))
   = (trace s ++ [EvGet (Service.url self);
                  EvLogError "Unable to parse data as json."])%list).
Proof.
  unfold _data, bind, http_get.
  destruct (requests_get (Service.url self) (net s)) as [[r|e] w]; simpl.
  - destruct (parse_state (text r)
                {| net := w; trace := trace s ++ [EvGet (Service.url self)] |})
      as [Hnet [Htrace | Htrace]].
    + split; [exact Hnet | left; exact Htrace].
    + split; [exact Hnet | right]. rewrite Htrace. simpl.
      now rewrite <- app_assoc.
  - split; [reflexivity | now left].
Qed.

Lemma listing_trace_grows self test (rest : gen Channel.t) :
  (forall s', exists evs,
      trace (snd (gen_next (gen_filter test rest) s')) = (trace s' ++ evs)%list) ->
  forall items s, exists evs,
      trace (snd (gen_next
                    (gen_filter test (gen_then (yield_channels self items) rest)) s))
      = (trace s ++ evs)%list.
Proof.
  intros Hrest. induction items as [|x items IH]; intros s.
  - exact (Hrest s).
  - rewrite yield_channels_cons. simpl.
    destruct (test (channel_of self x)) as [[|]|e].
    + exists []. simpl. now rewrite app_nil_r.
    + apply IH.
    + exists []. simpl. now rewrite app_nil_r.
Qed.

Lemma loop_trace_grows self test :
  forall entries s, exists evs,
      trace (snd (gen_next
                    (gen_filter test
                       (gen_for (brands_loop entries) (brand_channels self))) s))
      = (trace s ++ evs)%list.
Proof.
  induction entries as [|entry entries IH]; intros s.
  - exists []. simpl. now rewrite app_nil_r.
  - rewrite filtered_loop_step. simpl. unfold lift at 1.
    destruct (Brand.init entry) as [b|e].
    + unfold bind, http_get.
      destruct (requests_get (genre_url self b) (net s)) as [[r|e] w]; simpl.
      * unfold lift.
        destruct (j <~ response_json r ;
                  listed <~ py_get j "channels" PyNone ; py_iter listed)
          as [items|e].
        -- destruct (listing_trace_grows self test _ IH items
                       {| net := w; trace := trace s ++ [EvGet (genre_url self b)] |})
             as [evs Hevs].
           exists (EvGet (genre_url self b) :: evs). rewrite Hevs. simpl.
           now rewrite <- app_assoc.
        -- exists [EvGet (genre_url self b)]. reflexivity.
      * exists [EvGet (genre_url self b)]. reflexivity.
    + exists []. simpl. now rewrite app_nil_r.
Qed.

(** Nothing is kept between calls: every read of [_data] asks for the
    root page exactly once and asks for nothing else, and every lookup
    by id begins with that request, whatever was fetched before and
    however the lookup ends. *)
Theorem every_access_refetches self (s : state) :
  (net (snd (_data self s)) = snd (requests_get (Service.url self) (net s)) /\
   (trace (snd (_data self s)) = (trace s ++ [EvGet (Service.url self)])%list \/
    trace (snd (_data self s))
    = (trace s ++ [EvGet (Service.url self);
                   EvLogError "Unable to parse data as json."])%list)) /\
  (forall channel_id, exists evs,
      trace (snd (get_channel_by_id self channel_id s))
      = (trace s ++ EvGet (Service.url self) :: evs)%list).
Proof.
  split; [exact (data_state self s)|].
  intros channel_id.
  assert (Hnext : exists evs,
             trace (snd (gen_next (gen_filter (id_matches channel_id) (channels self)) s))
             = (trace s ++ EvGet (Service.url self) :: evs)%list).
  { rewrite filtered_channels_start. simpl. unfold bind at 1.
    pose proof (data_state self s) as [_ Htrace].
    destruct (_data self s) as [[data|e] s1]; simpl in Htrace |- *.
    - unfold lift. destruct (brand_entries data) as [entries|e].
      + destruct (loop_trace_grows self (id_matches channel_id) entries s1)
          as [evs Hevs].
        rewrite Hevs. destruct Htrace as [-> | ->].
        * exists evs. now rewrite <- app_assoc.
        * exists (EvLogError "Unable to parse data as json." :: evs).
          now rewrite <- app_assoc.
      + simpl. destruct Htrace as [-> | ->]; eexists; reflexivity.
    - destruct Htrace as [-> | ->]; eexists; reflexivity. }
  destruct Hnext as [evs Hevs]. exists evs.
  unfold get_channel_by_id, bind.
  destruct (gen_next (gen_filter (id_matches channel_id) (channels self)) s)
    as [[found|e] s1]; exact Hevs.
Qed.

End Fetching.

(* ================================================================== *)
(** ** The further properties at work on concrete pages *)

Lemma parse_passes_decoder_error_witness :
  embeds Fixture.fraction_page Fixture.page_pre
         Fixture.fraction_content Fixture.page_post /\
  @json_loads Fixture.env (Fixture.fraction_content ++ "}")
  = LoadsRaises (External "outside the fragment of the examples") /\
  @_parse_configuration_from_source Fixture.env Fixture.fraction_page
    (Fixture.after Fixture.table [])
  = (Raise (External "outside the fragment of the examples"),
     Fixture.after Fixture.table []).
Proof.
  assert (Hemb : embeds Fixture.fraction_page Fixture.page_pre
                        Fixture.fraction_content Fixture.page_post)
    by (apply embedsb_sound; by_running).
  assert (Hjson : @json_loads Fixture.env (Fixture.fraction_content ++ "}")
                  = LoadsRaises (External "outside the fragment of the examples"))
    by by_running.
  split; [exact Hemb | split; [exact Hjson|]].
  exact (@parse_passes_decoder_error Fixture.env _ _ _ _ _
           (Fixture.after Fixture.table []) Hemb Hjson).
Defined.

Lemma media_uri_resolves_witness :
  Channel.id (channel_of Service.init example_channel_entry) = Ret (PyStr "1") /\
  @json_loads Fixture.env Fixture.sweeper_body
  = Loaded (PyDict [("creative",
                     PyDict [("audio", PyStr "https://cdn.example/ad.mp3");
                             ("length", PyInt 30)])]) /\
  @Channel.media_uri Fixture.env (channel_of Service.init example_channel_entry)
    (Fixture.after Fixture.sweeper_table [])
  = (Ret (PyStr "https://cdn.example/ad.mp3"),
     Fixture.after Fixture.sweeper_table [Fixture.sweeper_url]) /\
  @Channel.media_uri Fixture.env (channel_of Service.init example_channel_entry)
    (Fixture.after Fixture.bare_sweeper_table [])
  = (Ret PyNone, Fixture.after Fixture.bare_sweeper_table [Fixture.sweeper_url]).
Proof.
  assert (Hid : Channel.id (channel_of Service.init example_channel_entry)
                = Ret (PyStr "1"))
    by reflexivity.
  assert (Hjson : @json_loads Fixture.env Fixture.sweeper_body
            = Loaded (PyDict [("creative",
                               PyDict [("audio", PyStr "https://cdn.example/ad.mp3");
                                       ("length", PyInt 30)])]))
    by by_running.
  assert (Hget : @requests_get Fixture.env
                   (@sweeper_request Fixture.env
                      (channel_of Service.init example_channel_entry) (PyStr "1"))
                   Fixture.sweeper_table
                 = (Ret {| text := Fixture.sweeper_body |}, Fixture.sweeper_table))
    by by_running.
  assert (Hbare : @requests_get Fixture.env
                    (@sweeper_request Fixture.env
                       (channel_of Service.init example_channel_entry) (PyStr "1"))
                    Fixture.bare_sweeper_table
                  = (Ret {| text := "{}" |}, Fixture.bare_sweeper_table))
    by by_running.
  split; [exact Hid|]. split; [exact Hjson|]. split.
  - exact (proj2 (@media_uri_resolves Fixture.env
                    (channel_of Service.init example_channel_entry)
                    (Fixture.after Fixture.sweeper_table [])
                    (PyStr "1") {| text := Fixture.sweeper_body |}
                    Fixture.sweeper_table _ Hid Hget Hjson)
                 _ eq_refl).
  - exact (proj1 (@media_uri_resolves Fixture.env
                    (channel_of Service.init example_channel_entry)
                    (Fixture.after Fixture.bare_sweeper_table [])
                    (PyStr "1") {| text := "{}" |}
                    Fixture.bare_sweeper_table [] Hid Hbare eq_refl)
                 eq_refl).
Defined.

Lemma media_uri_failures_witness :
  @Channel.media_uri Fixture.env null_id_channel
    (Fixture.after Fixture.sweeper_table [])
  = (Raise AttributeError, Fixture.after Fixture.sweeper_table []) /\
  @Channel.media_uri Fixture.env (channel_of Service.init example_channel_entry)
    (Fixture.after [] [])
  = (Raise (External "ConnectionError"), Fixture.after [] [Fixture.sweeper_url]) /\
  @Channel.media_uri Fixture.env (channel_of Service.init example_channel_entry)
    (Fixture.after Fixture.broken_sweeper_table [])
  = (Raise JSONDecodeError,
     Fixture.after Fixture.broken_sweeper_table [Fixture.sweeper_url]) /\
  @Channel.media_uri Fixture.env (channel_of Service.init example_channel_entry)
    (Fixture.after Fixture.flat_sweeper_table [])
  = (Raise AttributeError,
     Fixture.after Fixture.flat_sweeper_table [Fixture.sweeper_url]).
Proof.
  assert (Hid : Channel.id (channel_of Service.init example_channel_entry)
                = Ret (PyStr "1"))
    by reflexivity.
  split; [|split; [|split]].
  - exact (proj1 (@media_uri_failures Fixture.env null_id_channel
                    (Fixture.after Fixture.sweeper_table []))
                 AttributeError eq_refl).
  - refine (proj1 (proj2 (@media_uri_failures Fixture.env
                            (channel_of Service.init example_channel_entry)
                            (Fixture.after [] [])))
                  (PyStr "1") (External "ConnectionError") [] Hid _).
    by_running.
  - refine (proj1 (proj2 (proj2 (@media_uri_failures Fixture.env
                            (channel_of Service.init example_channel_entry)
                            (Fixture.after Fixture.broken_sweeper_table []))))
                  (PyStr "1") {| text := "<html>" |}
                  Fixture.broken_sweeper_table Hid _ _); by_running.
  - refine (proj2 (proj2 (proj2 (@media_uri_failures Fixture.env
                            (channel_of Service.init example_channel_entry)
                            (Fixture.after Fixture.flat_sweeper_table []))))
                  (PyStr "1") {| text := Fixture.quoted "{'creative': 'none'}" |}
                  Fixture.flat_sweeper_table
                  (PyDict [("creative", PyStr "none")]) Hid _ _ _).
    + by_running.
    + by_running.
    + intros d [= <-]. exists (PyStr "none"). split; [reflexivity|].
      intros creative. discriminate.
Defined.

Lemma data_failure_surfaces_witness :
  @_data Fixture.env Service.init
    (Fixture.after [(Fixture.root_url, Fixture.unmarked_page)] [])
  = (Raise (MarkerNotFound
      "Could not find starting marker __PRELOADED_STATE__ = in text: <html></html>"),
     Fixture.after [(Fixture.root_url, Fixture.unmarked_page)] [Fixture.root_url]) /\
  @gen_drain Fixture.env _ (channels Service.init)
    (Fixture.after [(Fixture.root_url, Fixture.unmarked_page)] [])
  = (Raise (MarkerNotFound
      "Could not find starting marker __PRELOADED_STATE__ = in text: <html></html>"),
     Fixture.after [(Fixture.root_url, Fixture.unmarked_page)] [Fixture.root_url]) /\
  @get_channel_by_id Fixture.env Service.init (PyStr "1")
    (Fixture.after [(Fixture.root_url, Fixture.unmarked_page)] [])
  = (Raise (MarkerNotFound
      "Could not find starting marker __PRELOADED_STATE__ = in text: <html></html>"),
     Fixture.after [(Fixture.root_url, Fixture.unmarked_page)] [Fixture.root_url]).
Proof.
  assert (Hdata : @_data Fixture.env Service.init
            (Fixture.after [(Fixture.root_url, Fixture.unmarked_page)] [])
          = (Raise (MarkerNotFound
              "Could not find starting marker __PRELOADED_STATE__ = in text: <html></html>"),
             Fixture.after [(Fixture.root_url, Fixture.unmarked_page)]
                           [Fixture.root_url]))
    by by_running.
  destruct (@data_failure_surfaces Fixture.env Service.init _ _ _ Hdata)
    as (_ & _ & Hdrain & Hlookup).
  split; [exact Hdata|]. split; [exact Hdrain | exact (Hlookup (PyStr "1"))].
Defined.

Lemma empty_catalog_witness :
  @_data Fixture.env Service.init
    (Fixture.after [(Fixture.root_url, Fixture.empty_catalog_page)] [])
  = (Ret (Fixture.state_with (PyList [])),
     Fixture.after [(Fixture.root_url, Fixture.empty_catalog_page)]
                   [Fixture.root_url]) /\
  @gen_drain Fixture.env _ (channels Service.init)
    (Fixture.after [(Fixture.root_url, Fixture.empty_catalog_page)] [])
  = (Ret [],
     Fixture.after [(Fixture.root_url, Fixture.empty_catalog_page)]
                   [Fixture.root_url]) /\
  @get_channel_by_id Fixture.env Service.init (PyStr "1")
    (Fixture.after [(Fixture.root_url, Fixture.empty_catalog_page)] [])
  = (Ret None,
     Fixture.after [(Fixture.root_url, Fixture.empty_catalog_page)]
                   [Fixture.root_url]).
Proof.
  assert (Hdata : @_data Fixture.env Service.init
            (Fixture.after [(Fixture.root_url, Fixture.empty_catalog_page)] [])
          = (Ret (Fixture.state_with (PyList [])),
             Fixture.after [(Fixture.root_url, Fixture.empty_catalog_page)]
                           [Fixture.root_url]))
    by by_running.
  destruct (@empty_catalog Fixture.env Service.init _ _ _ (PyList []) Hdata
              eq_refl (or_introl eq_refl))
    as [Hdrain Hlookup].
  split; [exact Hdata|]. split; [exact Hdrain | exact (Hlookup (PyStr "1"))].
Defined.

Lemma lookup_stops_at_match_witness :
  @_data Fixture.env Service.init (Fixture.after Fixture.stray_table [])
  = (Ret (Fixture.state_with (PyList [example_brand_entry; Fixture.stray_entry])),
     Fixture.after Fixture.stray_table [Fixture.root_url]) /\
  Brand.init Fixture.stray_entry = Raise TypeError /\
  @gen_drain Fixture.env _ (channels Service.init)
    (Fixture.after Fixture.stray_table [])
  = (Raise TypeError,
     Fixture.after Fixture.stray_table [Fixture.root_url; Fixture.genre_p_url]) /\
  has_other_id (PyStr "1") (channel_of Service.init Fixture.other_channel_entry) /\
  has_id (PyStr "1") (channel_of Service.init example_channel_entry) /\
  @get_channel_by_id Fixture.env Service.init (PyStr "1")
    (Fixture.after Fixture.stray_table [])
  = (Ret (Some (channel_of Service.init example_channel_entry)),
     Fixture.after Fixture.stray_table [Fixture.root_url; Fixture.genre_p_url]).
Proof.
  assert (Hdata : @_data Fixture.env Service.init
            (Fixture.after Fixture.stray_table [])
          = (Ret (Fixture.state_with
                    (PyList [example_brand_entry; Fixture.stray_entry])),
             Fixture.after Fixture.stray_table [Fixture.root_url]))
    by by_running.
  assert (Hfield : field_at brands_path
            (Fixture.state_with (PyList [example_brand_entry; Fixture.stray_entry]))
          = Some (PyList ([] ++ example_brand_entry :: [Fixture.stray_entry])%list))
    by reflexivity.
  assert (Hget : @requests_get Fixture.env
                   (@genre_url Fixture.env Service.init Fixture.brand_p)
                   Fixture.stray_table
                 = (Ret {| text := Fixture.two_channel_body |}, Fixture.stray_table))
    by by_running.
  assert (Hjson : @json_loads Fixture.env Fixture.two_channel_body
            = Loaded (PyDict [("channels",
                               PyList [Fixture.other_channel_entry;
                                       example_channel_entry])]))
    by by_running.
  assert (Hlisting : field_at ["channels"]
            (PyDict [("channels",
                      PyList [Fixture.other_channel_entry; example_channel_entry])])
          = Some (PyList ([Fixture.other_channel_entry]
                          ++ example_channel_entry :: [])%list))
    by reflexivity.
  assert (Hother : has_other_id (PyStr "1")
                     (channel_of Service.init Fixture.other_channel_entry))
    by (exists (PyStr "0"); split; reflexivity).
  assert (Hsame : has_id (PyStr "1") (channel_of Service.init example_channel_entry))
    by (exists (PyStr "1"); split; reflexivity).
  split; [exact Hdata|]. split; [reflexivity|]. split; [by_running|].
  split; [exact Hother|]. split; [exact Hsame|].
  exact (@lookup_stops_at_match Fixture.env Service.init (PyStr "1")
           (Fixture.after Fixture.stray_table []) _ _
           [] example_brand_entry [Fixture.stray_entry] [] [] Fixture.stray_table
           Fixture.brand_p {| text := Fixture.two_channel_body |} Fixture.stray_table
           _ [Fixture.other_channel_entry] example_channel_entry []
           Hdata Hfield eq_refl (@served_none Fixture.env Service.init _)
           eq_refl Hget Hjson Hlisting
           (Forall_cons _ Hother (Forall_nil _)) Hsame).
Defined.

Lemma unreadable_id_aborts_lookup_witness :
  @_data Fixture.env Service.init (Fixture.after Fixture.null_id_table [])
  = (Ret (Fixture.state_with (PyList [example_brand_entry; Fixture.stray_entry])),
     Fixture.after Fixture.null_id_table [Fixture.root_url]) /\
  @json_loads Fixture.env Fixture.null_id_body
  = Loaded (PyDict [("channels",
                     PyList [Fixture.other_channel_entry; Fixture.null_id_entry;
                             example_channel_entry])]) /\
  has_other_id (PyStr "1") (channel_of Service.init Fixture.other_channel_entry) /\
  Channel.id (channel_of Service.init Fixture.null_id_entry) = Raise AttributeError /\
  has_id (PyStr "1") (channel_of Service.init example_channel_entry) /\
  @get_channel_by_id Fixture.env Service.init (PyStr "1")
    (Fixture.after Fixture.null_id_table [])
  = (Raise AttributeError,
     Fixture.after Fixture.null_id_table [Fixture.root_url; Fixture.genre_p_url]).
Proof.
  assert (Hdata : @_data Fixture.env Service.init
            (Fixture.after Fixture.null_id_table [])
          = (Ret (Fixture.state_with
                    (PyList [example_brand_entry; Fixture.stray_entry])),
             Fixture.after Fixture.null_id_table [Fixture.root_url]))
    by by_running.
  assert (Hfield : field_at brands_path
            (Fixture.state_with (PyList [example_brand_entry; Fixture.stray_entry]))
          = Some (PyList ([] ++ example_brand_entry :: [Fixture.stray_entry])%list))
    by reflexivity.
  assert (Hget : @requests_get Fixture.env
                   (@genre_url Fixture.env Service.init Fixture.brand_p)
                   Fixture.null_id_table
                 = (Ret {| text := Fixture.null_id_body |}, Fixture.null_id_table))
    by by_running.
  assert (Hjson : @json_loads Fixture.env Fixture.null_id_body
            = Loaded (PyDict [("channels",
                               PyList [Fixture.other_channel_entry;
                                       Fixture.null_id_entry;
                                       example_channel_entry])]))
    by by_running.
  assert (Hlisting : field_at ["channels"]
            (PyDict [("channels",
                      PyList [Fixture.other_channel_entry; Fixture.null_id_entry;
                              example_channel_entry])])
          = Some (PyList ([Fixture.other_channel_entry]
                          ++ Fixture.null_id_entry :: [example_channel_entry])%list))
    by reflexivity.
  assert (Hother : has_other_id (PyStr "1")
                     (channel_of Service.init Fixture.other_channel_entry))
    by (exists (PyStr "0"); split; reflexivity).
  assert (Hnull : Channel.id (channel_of Service.init Fixture.null_id_entry)
                  = Raise AttributeError)
    by reflexivity.
  assert (Hsame : has_id (PyStr "1") (channel_of Service.init example_channel_entry))
    by (exists (PyStr "1"); split; reflexivity).
  split; [exact Hdata|]. split; [exact Hjson|]. split; [exact Hother|].
  split; [exact Hnull|]. split; [exact Hsame|].
  exact (@unreadable_id_aborts_lookup Fixture.env Service.init (PyStr "1")
           (Fixture.after Fixture.null_id_table []) _ _
           [] example_brand_entry [Fixture.stray_entry] [] []
           Fixture.null_id_table
           Fixture.brand_p {| text := Fixture.null_id_body |} Fixture.null_id_table
           _ [Fixture.other_channel_entry] Fixture.null_id_entry
           [example_channel_entry] AttributeError
           Hdata Hfield eq_refl (@served_none Fixture.env Service.init _)
           eq_refl Hget Hjson Hlisting
           (Forall_cons _ Hother (Forall_nil _)) Hnull).
Defined.

Lemma genre_failure_surfaces_witness :
  @_data Fixture.env Service.init (Fixture.after Fixture.down_table [])
  = (Ret Fixture.root_state, Fixture.after Fixture.down_table [Fixture.root_url]) /\
  @gen_drain Fixture.env _ (channels Service.init)
    (Fixture.after Fixture.down_table [])
  = (Raise (External "ConnectionError"),
     Fixture.after Fixture.down_table [Fixture.root_url; Fixture.genre_p_url]) /\
  @gen_drain Fixture.env _ (channels Service.init)
    (Fixture.after Fixture.html_table [])
  = (Raise JSONDecodeError,
     Fixture.after Fixture.html_table [Fixture.root_url; Fixture.genre_p_url]) /\
  @gen_drain Fixture.env _ (channels Service.init)
    (Fixture.after Fixture.array_table [])
  = (Raise AttributeError,
     Fixture.after Fixture.array_table [Fixture.root_url; Fixture.genre_p_url]) /\
  @gen_drain Fixture.env _ (channels Service.init)
    (Fixture.after [(Fixture.root_url, Fixture.root_page);
                    (Fixture.genre_p_url, Fixture.quoted "{'channels': 5}")] [])
  = (Raise TypeError,
     Fixture.after [(Fixture.root_url, Fixture.root_page);
                    (Fixture.genre_p_url, Fixture.quoted "{'channels': 5}")]
                   [Fixture.root_url; Fixture.genre_p_url]).
Proof.
  assert (Hfield : field_at brands_path Fixture.root_state
                   = Some (PyList ([] ++ example_brand_entry :: [])%list))
    by reflexivity.
  assert (Hdown : @_data Fixture.env Service.init
                    (Fixture.after Fixture.down_table [])
                  = (Ret Fixture.root_state,
                     Fixture.after Fixture.down_table [Fixture.root_url]))
    by by_running.
  assert (Hhtml : @_data Fixture.env Service.init
                    (Fixture.after Fixture.html_table [])
                  = (Ret Fixture.root_state,
                     Fixture.after Fixture.html_table [Fixture.root_url]))
    by by_running.
  assert (Harray : @_data Fixture.env Service.init
                     (Fixture.after Fixture.array_table [])
                   = (Ret Fixture.root_state,
                      Fixture.after Fixture.array_table [Fixture.root_url]))
    by by_running.
  assert (Hfive : @_data Fixture.env Service.init
            (Fixture.after [(Fixture.root_url, Fixture.root_page);
                            (Fixture.genre_p_url, Fixture.quoted "{'channels': 5}")] [])
          = (Ret Fixture.root_state,
             Fixture.after [(Fixture.root_url, Fixture.root_page);
                            (Fixture.genre_p_url, Fixture.quoted "{'channels': 5}")]
                           [Fixture.root_url]))
    by by_running.
  split; [exact Hdown|]. split; [|split; [|split]].
  - refine (proj2 (proj1 (@genre_failure_surfaces Fixture.env Service.init
              _ _ _ [] example_brand_entry [] [] Fixture.brand_p [] Fixture.down_table
              Hdown Hfield eq_refl eq_refl (@served_none Fixture.env Service.init _))
              (External "ConnectionError") Fixture.down_table _)).
    by_running.
  - refine (proj2 (proj1 (proj2 (@genre_failure_surfaces Fixture.env Service.init
              _ _ _ [] example_brand_entry [] [] Fixture.brand_p [] Fixture.html_table
              Hhtml Hfield eq_refl eq_refl (@served_none Fixture.env Service.init _)))
              {| text := "<html>" |} Fixture.html_table _ _)); by_running.
  - refine (proj2 (proj1 (proj2 (proj2 (@genre_failure_surfaces Fixture.env
              Service.init
              _ _ _ [] example_brand_entry [] [] Fixture.brand_p [] Fixture.array_table
              Harray Hfield eq_refl eq_refl (@served_none Fixture.env Service.init _))))
              {| text := "[]" |} Fixture.array_table (PyList []) _ _ _)).
    + by_running.
    + by_running.
    + intros d. discriminate.
  - refine (proj2 (proj2 (proj2 (proj2 (@genre_failure_surfaces Fixture.env
              Service.init
              _ _ _ [] example_brand_entry [] [] Fixture.brand_p [] _
              Hfive Hfield eq_refl eq_refl (@served_none Fixture.env Service.init _))))
              {| text := Fixture.quoted "{'channels': 5}" |} _
              [("channels", PyInt 5)] (PyInt 5) _ _ eq_refl eq_refl)); by_running.
Defined.
